(** * doc-converter: the conversion pipeline of [pkg/converter]

    A shallow embedding of [converter.go] and [utils.go] (package
    [converter]) together with the parts of the Go standard library and of
    goquery they call, followed by the properties of the pipeline.

    Go strings are byte sequences: they are Rocq [string]s, one [ascii] per
    byte.  Go [int] is a 64-bit two's complement integer: it is a [Z] and
    the wrap-around of [++] is written out.  The metadata
    [map[string]interface{}] only ever holds strings: it is a
    [gmap string string]. *)

From Stdlib Require Import ZArith NArith Ascii String List Bool Lia DecimalString.
From stdpp Require Import base option gmap strings.
Import ListNotations.

Local Open Scope string_scope.

(** ** Bytes *)

Module Bytes.

Definition code (a : ascii) : N := N_of_ascii a.

Definition between (lo hi : N) (a : ascii) : bool :=
  ((lo <=? code a) && (code a <=? hi))%N.

Definition isb (n : N) (a : ascii) : bool := (code a =? n)%N.

Definition newline : ascii := ascii_of_N 10.

(** The one-byte string of a line feed. *)
Definition LF : string := String newline EmptyString.

Fixpoint map (f : ascii -> ascii) (s : string) : string :=
  match s with
  | EmptyString => EmptyString
  | String c t => String (f c) (map f t)
  end.

Fixpoint filter (f : ascii -> bool) (s : string) : string :=
  match s with
  | EmptyString => EmptyString
  | String c t => if f c then String c (filter f t) else filter f t
  end.

Fixpoint all (f : ascii -> bool) (s : string) : bool :=
  match s with
  | EmptyString => true
  | String c t => f c && all f t
  end.

Fixpoint any (f : ascii -> bool) (s : string) : bool :=
  match s with
  | EmptyString => false
  | String c t => f c || any f t
  end.

Definition len (s : string) : N := N.of_nat (String.length s).

End Bytes.

(** ** Package [strings] of the Go standard library *)

Module strings.

Import Bytes.

(** [strings.ToLower]: ASCII-only strings are lowered byte by byte; any
    other string goes through [strings.Map(unicode.ToLower, s)], whose
    Unicode case tables are not part of this repository and are taken as
    the parameter [mapLower]. *)
Definition isASCII (s : string) : bool := all (fun c => (code c <? 128)%N) s.

Definition hasUpper (s : string) : bool := any (between 65 90) s.

Definition lowerByte (c : ascii) : ascii :=
  if between 65 90 c then ascii_of_N (code c + 32) else c.

Definition ToLower (mapLower : string -> string) (s : string) : string :=
  if isASCII s then
    if negb (hasUpper s) then s else map lowerByte s
  else mapLower s.

(** [strings.ReplaceAll(s, " ", "_")]: both strings are one byte long. *)
Definition ReplaceAll_space_underscore (s : string) : string :=
  map (fun c => if isb 32 c then ascii_of_N 95 else c) s.

(** [strings.Split(s, "/")]: the pieces between the separators, never an
    empty list. *)
Fixpoint Split_slash (s : string) : list string :=
  match s with
  | EmptyString => [EmptyString]
  | String c t =>
      if isb 47 c then EmptyString :: Split_slash t
      else match Split_slash t with
           | p :: ps => String c p :: ps
           | [] => [String c EmptyString]
           end
  end.

(** [strings.TrimSpace] removes the leading and trailing runes that
    [unicode.IsSpace] accepts.  On the UTF-8 bytes of the string those are
    the six ASCII spaces and the encodings of U+0085, U+00A0, U+1680,
    U+2000..U+200A, U+2028, U+2029, U+202F, U+205F and U+3000; an invalid
    byte decodes to U+FFFD, which is no space. *)
Definition asciiSpace (c : ascii) : bool :=
  between 9 13 c || isb 32 c.

Definition space2 (a b : ascii) : bool :=
  isb 0xC2 a && (isb 0x85 b || isb 0xA0 b).

Definition space3 (a b c : ascii) : bool :=
  (isb 0xE1 a && isb 0x9A b && isb 0x80 c)
  || (isb 0xE2 a && isb 0x80 b &&
        (between 0x80 0x8A c || isb 0xA8 c || isb 0xA9 c || isb 0xAF c))
  || (isb 0xE2 a && isb 0x81 b && isb 0x9F c)
  || (isb 0xE3 a && isb 0x80 b && isb 0x80 c).

(** The scan shared by both ends: drop spaces from the front of a byte
    list, given the tests for spaces of one, two and three bytes in the
    order in which the list presents them. *)
Section Scan.

Variable s1 : ascii -> bool.
Variable s2 : ascii -> ascii -> bool.
Variable s3 : ascii -> ascii -> ascii -> bool.

Fixpoint dropSpaces (l : list ascii) : list ascii :=
  match l with
  | x :: r =>
      if s1 x then dropSpaces r
      else match r with
           | y :: r' =>
               if s2 x y then dropSpaces r'
               else match r' with
                    | z :: r'' => if s3 x y z then dropSpaces r'' else l
                    | [] => l
                    end
           | [] => l
           end
  | [] => []
  end.

Definition spaceAhead (l : list ascii) : bool :=
  match l with
  | x :: r =>
      s1 x ||
      match r with
      | y :: r' => s2 x y || match r' with z :: _ => s3 x y z | [] => false end
      | [] => false
      end
  | [] => false
  end.

End Scan.

Definition trimLeft (l : list ascii) : list ascii :=
  dropSpaces asciiSpace space2 space3 l.

(** From the end the list is read reversed, so the bytes of a space come
    last byte first. *)
Definition space2r (y x : ascii) : bool := space2 x y.
Definition space3r (z y x : ascii) : bool := space3 x y z.

Definition trimRight (l : list ascii) : list ascii :=
  rev (dropSpaces asciiSpace space2r space3r (rev l)).

Definition TrimSpace (s : string) : string :=
  string_of_list_ascii (trimRight (trimLeft (list_ascii_of_string s))).

(** Whether a string starts, or ends, with a space. *)
Definition startsWithSpace (s : string) : bool :=
  spaceAhead asciiSpace space2 space3 (list_ascii_of_string s).

Definition endsWithSpace (s : string) : bool :=
  spaceAhead asciiSpace space2r space3r (rev (list_ascii_of_string s)).

Definition trimmed (s : string) : Prop :=
  startsWithSpace s = false /\ endsWithSpace s = false.

End strings.

(** ** Package [regexp]: the two patterns the converter compiles *)

Module regexp.

Import Bytes.

(** The class [[a-z0-9_]].  Every byte of a rune outside ASCII is at least
    128, so removing the matches of [[^a-z0-9_]+] keeps exactly the bytes
    of the class. *)
Definition wordByte (c : ascii) : bool :=
  between 97 122 c || between 48 57 c || isb 95 c.

Definition ReplaceAll_nonword_empty (s : string) : string :=
  filter wordByte s.

(** [regexp.MustCompile(`\n\n+`).ReplaceAllString(s, "\n\n")]: the matches
    are the maximal runs of two or more newlines, each replaced by two.
    [seen] counts the newlines already written for the current run. *)
Fixpoint collapseFrom (seen : nat) (s : string) : string :=
  match s with
  | EmptyString => EmptyString
  | String c t =>
      if isb 10 c then
        if (seen <? 2)%nat then String c (collapseFrom (S seen) t)
        else collapseFrom seen t
      else String c (collapseFrom 0 t)
  end.

Definition ReplaceAll_newlines (s : string) : string := collapseFrom 0 s.

End regexp.

(** ** [utils.go] *)

Section Utils.

Variable mapLower : string -> string.

(** [SanitizeFilename]: lowercase, spaces to underscores, then remove
    every character that is not alphanumeric or underscore. *)
Definition SanitizeFilename (s : string) : string :=
  let s := strings.ToLower mapLower s in
  let s := strings.ReplaceAll_space_underscore s in
  let s := regexp.ReplaceAll_nonword_empty s in
  s.

End Utils.

(** ** Package [net]: the address classes the SSRF guard tests

    [net.IP] is a byte slice of length 4 or 16; a byte is a [Z] in
    [0, 255]. *)

Module net.

Local Open Scope Z_scope.

Definition IP : Type := list Z.

Definition IPv4len : nat := 4.
Definition IPv6len : nat := 16.

Definition at_ (ip : IP) (i : nat) : Z := nth i ip 0.

Definition isZeros (p : list Z) : bool := forallb (Z.eqb 0) p.

Definition bytesEqual (a b : list Z) : bool :=
  (length a =? length b)%nat && forallb (fun p => fst p =? snd p) (combine a b).

Definition IPv6loopback : IP := [0;0;0;0;0;0;0;0;0;0;0;0;0;0;0;1].

(** [ip.To4()]: [None] is Go's [nil]. *)
Definition To4 (ip : IP) : option IP :=
  if (length ip =? IPv4len)%nat then Some ip
  else if (length ip =? IPv6len)%nat && isZeros (firstn 10 ip)
          && (at_ ip 10 =? 0xff) && (at_ ip 11 =? 0xff)
       then Some (firstn 4 (skipn 12 ip))
       else None.

Definition IsLoopback (ip : IP) : bool :=
  match To4 ip with
  | Some ip4 => at_ ip4 0 =? 127
  | None => bytesEqual ip IPv6loopback
  end.

Definition IsPrivate (ip : IP) : bool :=
  match To4 ip with
  | Some ip4 =>
      (at_ ip4 0 =? 10)
      || ((at_ ip4 0 =? 172) && (Z.land (at_ ip4 1) 0xf0 =? 16))
      || ((at_ ip4 0 =? 192) && (at_ ip4 1 =? 168))
  | None => (length ip =? IPv6len)%nat && (Z.land (at_ ip 0) 0xfe =? 0xfc)
  end.

Definition IsLinkLocalMulticast (ip : IP) : bool :=
  match To4 ip with
  | Some ip4 => (at_ ip4 0 =? 224) && (at_ ip4 1 =? 0) && (at_ ip4 2 =? 0)
  | None =>
      (length ip =? IPv6len)%nat && (at_ ip 0 =? 0xff)
      && (Z.land (at_ ip 1) 0x0f =? 0x02)
  end.

Definition IsLinkLocalUnicast (ip : IP) : bool :=
  match To4 ip with
  | Some ip4 => (at_ ip4 0 =? 169) && (at_ ip4 1 =? 254)
  | None =>
      (length ip =? IPv6len)%nat && (at_ ip 0 =? 0xfe)
      && (Z.land (at_ ip 1) 0xc0 =? 0x80)
  end.

End net.

(** ** Package [html]: the parsed document *)

Module html.

Inductive NodeType : Set :=
  ErrorNode | TextNode | DocumentNode | ElementNode | CommentNode | DoctypeNode.

Record Attribute : Set := { Key : string; Val : string }.

(** A node with its type, its data (the tag name of an element, the text
    of a text node), its attributes and its children in order. *)
#[local] Unset Elimination Schemes.
Inductive Node : Set :=
  MkNode (type : NodeType) (data : string) (attr : list Attribute)
         (children : list Node).
#[local] Set Elimination Schemes.

Definition Type_ (n : Node) : NodeType := let 'MkNode t _ _ _ := n in t.
Definition Data (n : Node) : string := let 'MkNode _ d _ _ := n in d.
Definition Attr (n : Node) : list Attribute := let 'MkNode _ _ a _ := n in a.
Definition Children (n : Node) : list Node := let 'MkNode _ _ _ c := n in c.

Definition isElement (n : Node) : bool :=
  match Type_ n with ElementNode => true | _ => false end.

Definition text (s : string) : Node := MkNode TextNode s [] [].
Definition elem (tag : string) (a : list Attribute) (c : list Node) : Node :=
  MkNode ElementNode tag a c.
Definition document (c : list Node) : Node := MkNode DocumentNode "" [] c.

End html.

(** ** goquery selections and the cascadia selectors the converter uses *)

Module goquery.

Import html.

(** A selection is a list of nodes of one document.  Go compares nodes by
    address; here a node is identified by its path from the root. *)
Definition Path : Set := list nat.
Definition Located : Set := Path * Node.
Definition Selection : Set := list Located.

(** [doc.Selection]: the root alone. *)
Definition root (doc : Node) : Selection := [([], doc)].

(** The text of a node: the data of every text node below it, in order. *)
Fixpoint nodeText (n : Node) : string :=
  match n with
  | MkNode ty d _ cs =>
      (match ty with TextNode => d | _ => "" end)
      ++ (fix each (l : list Node) : string :=
            match l with
            | [] => ""
            | c :: r => nodeText c ++ each r
            end) cs
  end.

Definition Text (s : Selection) : string :=
  fold_right (fun ln acc => nodeText (snd ln) ++ acc) "" s.

(** cascadia's [MatchAll]: the node itself, then its descendants, in
    document order. *)
Fixpoint matchAll (m : Node -> bool) (p : Path) (n : Node) : Selection :=
  ((if m n then [(p, n)] else [])
   ++ match n with
      | MkNode _ _ _ cs =>
          (fix each (i : nat) (l : list Node) : Selection :=
             match l with
             | [] => []
             | c :: r => matchAll m (p ++ [i]) c ++ each (S i) r
             end) 0%nat cs
      end)%list.

(** [findWithMatcher] on one node: [MatchAll] on each element child. *)
Fixpoint matchChildren (m : Node -> bool) (p : Path) (i : nat)
    (l : list Node) : Selection :=
  match l with
  | [] => []
  | c :: r =>
      ((if isElement c then matchAll m (p ++ [i]) c else [])
       ++ matchChildren m p (S i) r)%list
  end.

Definition pathEq (p q : Path) : bool := bool_decide (p = q).

Definition appendWithoutDuplicates (acc vals : Selection) : Selection :=
  fold_left
    (fun acc ln =>
       if existsb (fun x => pathEq (fst x) (fst ln)) acc then acc
       else (acc ++ [ln])%list)
    vals acc.

(** [Selection.Find] with a compiled matcher. *)
Definition Find (m : Node -> bool) (s : Selection) : Selection :=
  fold_left
    (fun acc ln =>
       appendWithoutDuplicates acc
         (matchChildren m (fst ln) 0 (Children (snd ln))))
    s [].

(** The selectors the converter writes as literals. *)
Definition tagSelector (tag : string) (n : Node) : bool :=
  isElement n && String.eqb (Data n) tag.

Definition attrEquals (key val : string) (n : Node) : bool :=
  isElement n
  && existsb (fun a => String.eqb (Key a) key && String.eqb (Val a) val)
       (Attr n).

Definition metaNamed (name : string) (n : Node) : bool :=
  tagSelector "meta" n && attrEquals "name" name n.

Definition headingsParagraphsAnchors (n : Node) : bool :=
  existsb (fun tag => tagSelector tag n)
    ["h1"; "h2"; "h3"; "h4"; "h5"; "h6"; "p"; "a"].

(** [s.Attr(name)] on a one-node selection: the first attribute with that
    key. *)
Definition nodeAttr (name : string) (n : Node) : option string :=
  match List.find (fun a => String.eqb (Key a) name) (Attr n) with
  | Some a => Some (Val a)
  | None => None
  end.

Definition NodeName (n : Node) : string :=
  match Type_ n with
  | ElementNode | DoctypeNode => Data n
  | ErrorNode => ""
  | TextNode => "#text"
  | DocumentNode => "#document"
  | CommentNode => "#comment"
  end.

End goquery.

(** ** The outside world of a conversion

    Go's [(value, error)] pairs are [result]s; an [error] is its message. *)

Definition error : Set := string.

Inductive result (A : Type) : Type :=
| Ok (a : A)
| Err (e : error).
Arguments Ok {A} a.
Arguments Err {A} e.

(** What [http.Client.Get] hands back: the status code and the bytes the
    body reader will deliver. *)
Record Response : Set := { StatusCode : Z; Body : string }.

(** The libraries and services the converter calls and this repository
    does not contain.  [http_Get n u] answers the request for [u] that
    follows [n] earlier requests of the same worker, so that the two
    fetches of a URL may be answered differently.  [cascadia_Find sel doc]
    is [doc.Find(sel)] for a selector given at run time. *)
Record Platform : Type := {
  unicode_ToLower_Map : string -> string;
  url_Hostname : string -> result string;
  net_LookupIP : string -> result (list net.IP);
  http_Get : nat -> string -> result Response;
  html_Parse : string -> result html.Node;
  html_Render : html.Node -> result string;
  cascadia_Find : string -> html.Node -> goquery.Selection;
  time_Now_RFC3339 : string;
  yaml_Marshal : gmap string string -> result string;
  filepath_Join : string -> string -> string;
  os_WriteFile : string -> string -> option error
}.

(** The effects a worker has on the world, in the order it performs
    them. *)
Inductive Event : Set :=
| EvGet (u : string)
| EvWriteFile (path content : string).

Definition isGet (e : Event) : bool :=
  match e with EvGet _ => true | EvWriteFile _ _ => false end.

Definition IO (A : Type) : Type := list Event -> A * list Event.

Definition ret {A : Type} (a : A) : IO A := fun log => (a, log).

Definition bind {A B : Type} (m : IO A) (k : A -> IO B) : IO B :=
  fun log => let (a, log') := m log in k a log'.

Notation "x <- m ;; k" := (bind m (fun x => k))
  (at level 100, m at next level, right associativity).

Definition run {A : Type} (m : IO A) : A * list Event := m [].

(** ** [converter.go] *)

Definition maxBodySize : N := 5 * 1024 * 1024.

(** [%d] of an [int]. *)
Definition itoa (z : Z) : string := NilEmpty.string_of_int (Z.to_int z).

Record Result : Set := {
  URL : string;
  FileName : string;
  Content : string;
  Error : string;
  IsSuccess : bool
}.

(** [Summary]; its [DownloadID] is [Summary_DownloadID] here, the name
    being taken by the field of [Converter]. *)
Record Summary : Set := {
  TotalURLs : Z;
  Successful : Z;
  Failed : Z;
  FailedURLs : list string;
  ProcessingTime : string;
  Summary_DownloadID : string
}.

(** [Converter]: its [Client] is the [http_Get] of the platform. *)
Record Converter : Set := { OutputDir : string; DownloadID : string }.

(** What a worker does to the shared counters inside its critical
    section. *)
Inductive Update : Set :=
| CountError (u : string)
| CountSuccess.

Section Pipeline.

Variable P : Platform.
Variable c : Converter.

Import goquery.

#[local] Abbreviation LF := Bytes.LF.

Definition Client_Get (u : string) : IO (result Response) :=
  fun log =>
    (http_Get P (length (List.filter isGet log)) u, (log ++ [EvGet u])%list).

Definition WriteFile (path content : string) : IO (option error) :=
  fun log =>
    (os_WriteFile P path content, (log ++ [EvWriteFile path content])%list).

(** [goquery.NewDocumentFromReader] on a body behind
    [http.MaxBytesReader(nil, body, maxBodySize)]. *)
Definition NewDocumentFromLimitedReader (body : string) : result html.Node :=
  if (maxBodySize <? Bytes.len body)%N
  then Err "http: request body too large"
  else html_Parse P body.

(** [Selection.Html]: the rendering of the children of the first node. *)
Fixpoint renderAll (l : list html.Node) : result string :=
  match l with
  | [] => Ok ""
  | n :: r =>
      match html_Render P n with
      | Err e => Err e
      | Ok s =>
          match renderAll r with
          | Err e => Err e
          | Ok t => Ok (s ++ t)
          end
      end
  end.

Definition Html (s : Selection) : result string :=
  match s with
  | [] => Ok ""
  | (_, n) :: _ => renderAll (html.Children n)
  end.

Definition processURL (urlStr selector : string) : IO (result string) :=
  r <- Client_Get urlStr ;;
  match r with
  | Err err => ret (Err ("failed to fetch URL " ++ urlStr ++ ": " ++ err))
  | Ok resp =>
      if negb (StatusCode resp =? 200)%Z then
        ret (Err ("failed to fetch URL " ++ urlStr ++ ": HTTP status "
                  ++ itoa (StatusCode resp)))
      else
        match NewDocumentFromLimitedReader (Body resp) with
        | Err err =>
            ret (Err ("failed to read HTML for " ++ urlStr ++ ": " ++ err))
        | Ok doc =>
            let content := cascadia_Find P selector doc in
            if (length content =? 0)%nat then
              ret (Err ("could not find content in " ++ urlStr
                        ++ " using selector '" ++ selector ++ "'"))
            else
              match Html content with
              | Err err =>
                  ret (Err ("failed to get HTML content for selector '"
                            ++ selector ++ "': " ++ err))
              | Ok htmlContent => ret (Ok htmlContent)
              end
        end
  end.

(** The loop of [isPublicURL] over the resolved addresses. *)
Fixpoint allPublic (ips : list net.IP) : bool :=
  match ips with
  | [] => true
  | ip :: rest =>
      if net.IsLoopback ip || net.IsLinkLocalMulticast ip
         || net.IsLinkLocalUnicast ip || net.IsPrivate ip
      then false
      else allPublic rest
  end.

Definition isPublicURL (urlStr : string) : result bool :=
  match url_Hostname P urlStr with
  | Err err => Err err
  | Ok host =>
      match net_LookupIP P host with
      | Err err => Err err
      | Ok ips => Ok (allPublic ips)
      end
  end.

Definition titleOf (doc : html.Node) : string :=
  strings.TrimSpace (Text (Find (tagSelector "title") (root doc))).

Definition getSanitizedTitle (doc : html.Node) (fallbackURL : string) : string :=
  let title := titleOf doc in
  let title :=
    if String.eqb title "" then
      let parts := strings.Split_slash fallbackURL in
      let title :=
        if (0 <? length parts)%nat then
          let title := nth (length parts - 1) parts "" in
          if String.eqb title "" && (1 <? length parts)%nat
          then nth (length parts - 2) parts ""
          else title
        else title in
      if String.eqb title "" then "untitled" else title
    else title in
  SanitizeFilename (unicode_ToLower_Map P) title.

(** The callback of the two [Each] loops of [getMetadata]. *)
Definition setFromContent (key : string) (metadata : gmap string string)
    (s : Located) : gmap string string :=
  match nodeAttr "content" (snd s) with
  | Some v => <[key := v]> metadata
  | None => metadata
  end.

Definition getMetadata (doc : html.Node) (url : string) : gmap string string :=
  let metadata : gmap string string := ∅ in
  let metadata := <["source" := url]> metadata in
  let title := titleOf doc in
  let metadata :=
    if negb (String.eqb title "") then <["title" := title]> metadata
    else metadata in
  let metadata :=
    fold_left (setFromContent "description")
      (Find (metaNamed "description") (root doc)) metadata in
  let metadata :=
    fold_left (setFromContent "keywords")
      (Find (metaNamed "keywords") (root doc)) metadata in
  metadata.

(** The callback of the [Each] loop of [htmlToMarkdown]: what one matched
    element appends to the builder. *)
Definition renderElement (s : Located) : string :=
  let tagName := NodeName (snd s) in
  let text := strings.TrimSpace (nodeText (snd s)) in
  if String.eqb text "" then ""
  else if String.eqb tagName "h1" then "# " ++ text ++ LF ++ LF
  else if String.eqb tagName "h2" then "## " ++ text ++ LF ++ LF
  else if String.eqb tagName "h3" then "### " ++ text ++ LF ++ LF
  else if String.eqb tagName "h4" then "#### " ++ text ++ LF ++ LF
  else if String.eqb tagName "h5" then "##### " ++ text ++ LF ++ LF
  else if String.eqb tagName "h6" then "###### " ++ text ++ LF ++ LF
  else if String.eqb tagName "p" then text ++ LF ++ LF
  else if String.eqb tagName "a" then
    match nodeAttr "href" (snd s) with
    | Some href => "[" ++ text ++ "](" ++ href ++ ")"
    | None => text
    end
  else "".

Definition htmlToMarkdown (htmlContent : string) : string :=
  match html_Parse P htmlContent with
  | Err _ => ""
  | Ok doc =>
      let body := Find (tagSelector "body") (root doc) in
      let selection := if (0 <? length body)%nat then body else root doc in
      let markdownBuilder :=
        fold_left (fun b s => b ++ renderElement s)
          (Find headingsParagraphsAnchors selection) "" in
      let markdownBuilder :=
        if (String.length markdownBuilder =? 0)%nat then
          let text := strings.TrimSpace (Text selection) in
          if negb (String.eqb text "") then markdownBuilder ++ text
          else markdownBuilder
        else markdownBuilder in
      let result := regexp.ReplaceAll_newlines markdownBuilder in
      strings.TrimSpace result
  end.

(** The frontmatter and the body, as the worker's buffer receives them. *)
Definition compose (yamlBytes markdownContent : string) : string :=
  "---" ++ LF ++ yamlBytes ++ "---" ++ LF ++ LF ++ markdownContent.

(** The block every failing branch of the worker runs: count the error,
    record the URL, send the failure. *)
Definition failure (u msg : string) : Update * Result :=
  (CountError u,
   {| URL := u; FileName := ""; Content := ""; Error := msg;
      IsSuccess := false |}).

(** The name of the file the worker writes. *)
Definition filenameOf (doc : html.Node) (u : string) : string :=
  getSanitizedTitle doc u ++ ".md".

(** The metadata the worker marshals. *)
Definition pageMetadataOf (doc : html.Node) (u : string) : gmap string string :=
  <["retrieved_at" := time_Now_RFC3339 P]> (getMetadata doc u).

(** The body of the goroutine [Convert] starts for the URL [u], up to the
    send on [resultsChan]: the update of the shared counters it performs
    under the mutex and the [Result] it sends.  The calls of [log.Printf]
    are left out. *)
Definition worker (selector u : string) : IO (Update * Result) :=
  match isPublicURL u with
  | Err err => ret (failure u ("URL validation failed: " ++ err))
  | Ok false =>
      ret (failure u "SSRF attack suspected: URL resolves to a non-public IP")
  | Ok true =>
      r <- processURL u selector ;;
      match r with
      | Err err => ret (failure u err)
      | Ok content =>
          g <- Client_Get u ;;
          match g with
          | Err err =>
              ret (failure u ("failed to fetch URL for metadata: " ++ err))
          | Ok resp =>
              match NewDocumentFromLimitedReader (Body resp) with
              | Err err =>
                  ret (failure u ("failed to parse HTML for metadata: " ++ err))
              | Ok doc =>
                  let pageMetadata := pageMetadataOf doc u in
                  let markdownContent := htmlToMarkdown content in
                  match yaml_Marshal P pageMetadata with
                  | Err err =>
                      ret (failure u ("failed to marshal YAML: " ++ err))
                  | Ok yamlBytes =>
                      let finalContent := compose yamlBytes markdownContent in
                      let filename := filenameOf doc u in
                      let filePath := filepath_Join P (OutputDir c) filename in
                      w <- WriteFile filePath finalContent ;;
                      match w with
                      | Some err =>
                          ret (failure u ("failed to write file: " ++ err))
                      | None =>
                          ret (CountSuccess,
                               {| URL := u; FileName := filename;
                                  Content := finalContent; Error := "";
                                  IsSuccess := true |})
                      end
                  end
              end
          end
      end
  end.

End Pipeline.

(** ** [Convert]: one goroutine per URL, counters behind one mutex

    Go's [int] is 64 bits wide; [++] wraps around. *)

Definition wrap64 (z : Z) : Z := ((z + 2 ^ 63) mod 2 ^ 64 - 2 ^ 63)%Z.

Definition incr (z : Z) : Z := wrap64 (z + 1).

(** The variables of [Convert] that the goroutines share. *)
Record Shared : Set := {
  successCount : Z;
  errorCount : Z;
  failedURLs : list string
}.

Definition applyUpdate (up : Update) (sh : Shared) : Shared :=
  match up with
  | CountError u =>
      {| successCount := successCount sh;
         errorCount := incr (errorCount sh);
         failedURLs := failedURLs sh ++ [u] |}
  | CountSuccess =>
      {| successCount := incr (successCount sh);
         errorCount := errorCount sh;
         failedURLs := failedURLs sh |}
  end.

(** A goroutine has not yet left its critical section ([Running]), holds
    the [Result] it is about to send on the unbuffered channel
    ([Sending]), or has returned ([Finished], after [wg.Done]). *)
Inductive Thread : Set :=
| Running (u : string)
| Sending (r : Result)
| Finished.

Record RunState : Set := {
  threads : list Thread;
  shared : Shared;
  received : list Result
}.

Definition initial (urls : list string) : RunState :=
  {| threads := List.map Running urls;
     shared := {| successCount := 0; errorCount := 0; failedURLs := [] |};
     received := [] |}.

(** One scheduling step.  Any goroutine that is still running may take
    the lock next; what it meets outside is some platform [P].  Any
    goroutine that holds a result may hand it to the consumer next. *)
Inductive step (c : Converter) (selector : string) : RunState -> RunState -> Prop :=
| step_work (P : Platform) (pre post : list Thread) (u : string)
    (sh : Shared) (out : list Result) :
    let o := fst (run (worker P c selector u)) in
    step c selector
      {| threads := pre ++ Running u :: post; shared := sh; received := out |}
      {| threads := pre ++ Sending (snd o) :: post;
         shared := applyUpdate (fst o) sh; received := out |}
| step_send (pre post : list Thread) (r : Result)
    (sh : Shared) (out : list Result) :
    step c selector
      {| threads := pre ++ Sending r :: post; shared := sh; received := out |}
      {| threads := pre ++ Finished :: post; shared := sh;
         received := out ++ [r] |}.

Definition isFinished (t : Thread) : bool :=
  match t with Finished => true | _ => false end.

(** [wg.Wait()] returns. *)
Definition allFinished (st : RunState) : bool := forallb isFinished (threads st).

(** The [Summary] built after [wg.Wait()]; [elapsed] is
    [time.Since(startTime).String()]. *)
Definition summaryOf (c : Converter) (urls : list string) (elapsed : string)
    (st : RunState) : Summary :=
  {| TotalURLs := Z.of_nat (length urls);
     Successful := successCount (shared st);
     Failed := errorCount (shared st);
     FailedURLs := failedURLs (shared st);
     ProcessingTime := elapsed;
     Summary_DownloadID := DownloadID c |}.

(** A run of [Convert] whose consumer drains the result stream: the
    results in the order received, and the summary. *)
Definition Convert (c : Converter) (urls : list string) (selector : string)
    (results : list Result) (summary : Summary) : Prop :=
  exists (st : RunState) (elapsed : string),
    rtc (step c selector) (initial urls) st
    /\ allFinished st = true
    /\ results = received st
    /\ summary = summaryOf c urls elapsed st.

(** The schedule in which the goroutines run one after the other, in the
    order of the URLs, all on the platform [P]. *)
Fixpoint sequential (P : Platform) (c : Converter) (selector : string)
    (urls : list string) (sh : Shared) (out : list Result)
    : Shared * list Result :=
  match urls with
  | [] => (sh, out)
  | u :: rest =>
      let o := fst (run (worker P c selector u)) in
      sequential P c selector rest (applyUpdate (fst o) sh) (out ++ [snd o])
  end.

Definition ConvertSequential (P : Platform) (c : Converter)
    (urls : list string) (selector elapsed : string)
    : list Result * Summary :=
  let '(sh, out) :=
    sequential P c selector urls
      {| successCount := 0; errorCount := 0; failedURLs := [] |} [] in
  (out,
   {| TotalURLs := Z.of_nat (length urls);
      Successful := successCount sh;
      Failed := errorCount sh;
      FailedURLs := failedURLs sh;
      ProcessingTime := elapsed;
      Summary_DownloadID := DownloadID c |}).

(** ** A concrete world, to run the pipeline on *)

Module Demo.

Import html.

Definition dq : string := String (ascii_of_N 34) "".

(** The fragment [<h1>Title</h1><p>Body <a href="https://x">link</a></p>]
    and the tree [html.Parse] builds for it: the parser supplies the
    [html], [head] and [body] elements. *)
Definition fragment : string :=
  "<h1>Title</h1><p>Body <a href=" ++ dq ++ "https://x" ++ dq
  ++ ">link</a></p>".

Definition fragmentNodes : list Node :=
  [ elem "h1" [] [text "Title"];
    elem "p" []
      [ text "Body ";
        elem "a" [ {| Key := "href"; Val := "https://x" |} ] [text "link"] ] ].

Definition fragmentDoc : Node :=
  document [ elem "html" [] [ elem "head" [] []; elem "body" [] fragmentNodes ] ].

(** A page with a title, a description and the fragment inside
    [<div id="main">]. *)
Definition pageDoc (title : list Node) : Node :=
  document
    [ elem "html" []
        [ elem "head" []
            (title ++
             [ elem "meta"
                 [ {| Key := "name"; Val := "description" |};
                   {| Key := "content"; Val := "A page" |} ] [] ]);
          elem "body" []
            [ elem "div" [ {| Key := "id"; Val := "main" |} ] fragmentNodes ] ] ].

Definition titled (t : string) : list Node := [ elem "title" [] [text t] ].

(** A page as a web server may answer a request it cannot serve. *)
Definition notFoundDoc : Node :=
  document
    [ elem "html" []
        [ elem "head" [] (titled "404 Not Found");
          elem "body" [] [ elem "h1" [] [text "Not Found"] ] ] ].

(** A renderer for trees without characters to escape; [meta] has no end
    tag. *)
Definition renderAttr (a : Attribute) : string :=
  " " ++ Key a ++ "=" ++ dq ++ Val a ++ dq.

Fixpoint render (n : Node) : string :=
  match n with
  | MkNode ty d attrs cs =>
      let inner :=
        (fix each (l : list Node) : string :=
           match l with
           | [] => ""
           | c :: r => render c ++ each r
           end) cs in
      match ty with
      | TextNode => d
      | ElementNode =>
          "<" ++ d ++ String.concat "" (List.map renderAttr attrs) ++ ">"
          ++ (if String.eqb d "meta" then "" else inner ++ "</" ++ d ++ ">")
      | _ => inner
      end
  end.

Definition eqs (a b : string) : bool := String.eqb a b.

(** The bodies the demo server sends, and what the parser makes of them. *)
Definition parse (docs : list Node) (body : string) : result Node :=
  match List.find (fun d => eqs (render d) body) docs with
  | Some d => Ok d
  | None =>
      if eqs body fragment then Ok fragmentDoc
      else Ok (document [ elem "html" [] [ elem "head" [] []; elem "body" [] [] ] ])
  end.

Definition hostname (u : string) : result string :=
  match strings.Split_slash u with
  | _ :: _ :: host :: _ => Ok host
  | _ => Err "missing host"
  end.

Definition publicIP : net.IP := [93; 184; 216; 34]%Z.
Definition privateIP : net.IP := [10; 0; 0; 5]%Z.

Definition lookup (host : string) : result (list net.IP) :=
  if eqs host "example.com" then Ok [publicIP]
  else if eqs host "intranet.example.com" then Ok [publicIP; privateIP]
  else Err ("lookup " ++ host ++ ": no such host").

Definition find (selector : string) (doc : Node) : goquery.Selection :=
  if eqs selector "#main"
  then goquery.Find (goquery.attrEquals "id" "main") (goquery.root doc)
  else [].

Definition marshal (m : gmap string string) : result string :=
  Ok (String.concat ""
        (List.map (fun kv => fst kv ++ ": " ++ snd kv ++ Bytes.LF)
           (map_to_list m))).

(** The platform on which the first request of a worker is answered with
    status [first] and the page [page], and every later one with status
    [second] and the page [page']. *)
Definition platform (first : Z) (page : Node) (second : Z) (page' : Node)
    : Platform :=
  {| unicode_ToLower_Map := fun s => s;
     url_Hostname := hostname;
     net_LookupIP := lookup;
     http_Get := fun n _ =>
       if (n =? 0)%nat
       then Ok {| StatusCode := first; Body := render page |}
       else Ok {| StatusCode := second; Body := render page' |};
     html_Parse := parse [page; page'];
     html_Render := fun n => Ok (render n);
     cascadia_Find := find;
     time_Now_RFC3339 := "2024-01-01T00:00:00Z";
     yaml_Marshal := marshal;
     filepath_Join := fun d f => d ++ "/" ++ f;
     os_WriteFile := fun _ _ => None |}.

Definition job : Converter :=
  {| OutputDir := "tmp/downloads/job1"; DownloadID := "job1" |}.

Definition plain : Platform :=
  platform 200 (pageDoc (titled "Docs")) 200 (pageDoc (titled "Docs")).

End Demo.

(** ** Vocabulary of the statements *)

(** A string without the separator [/]. *)
Definition noSlash (s : string) : bool :=
  Bytes.all (fun c => negb (Bytes.isb 47 c)) s.

(** An ASCII byte that is no letter, no digit, no underscore and no
    blank: a byte outside [[A-Za-z0-9_ ]]. *)
Definition symbolByte (c : ascii) : bool :=
  (Bytes.code c <? 128)%N && negb (regexp.wordByte c)
  && negb (Bytes.between 65 90 c) && negb (Bytes.isb 32 c).

(** A byte outside [[a-z0-9_ ]]. *)
Definition outsideClass (c : ascii) : bool :=
  negb (regexp.wordByte c || Bytes.isb 32 c).

(** The untrimmed text of the [<title>] elements of a document. *)
Definition rawTitle (doc : html.Node) : string :=
  goquery.Text (goquery.Find (goquery.tagSelector "title") (goquery.root doc)).

(** A run of three newlines somewhere in a string. *)
Definition hasTripleNewline (s : string) : Prop :=
  exists p q : string, s = p ++ Bytes.LF ++ Bytes.LF ++ Bytes.LF ++ q.

(** The same, decided by a scan that counts the newlines of the current
    run. *)
Fixpoint tripleFrom (k : nat) (s : string) : bool :=
  match s with
  | EmptyString => false
  | String c t =>
      if Bytes.isb 10 c then
        if (2 <=? k)%nat then true else tripleFrom (S k) t
      else tripleFrom 0 t
  end.

(** The Markdown the fragment of the demo renders to. *)
Definition fragmentMarkdown : string :=
  "# Title" ++ Bytes.LF ++ Bytes.LF ++ "Body link" ++ Bytes.LF ++ Bytes.LF
  ++ "[link](https://x)".

(** The document has a [<meta name="...">] element with a [content]
    attribute. *)
Definition hasMetaContent (name : string) (doc : html.Node) : Prop :=
  exists (s : goquery.Located) (v : string),
    In s (goquery.Find (goquery.metaNamed name) (goquery.root doc))
    /\ goquery.nodeAttr "content" (snd s) = Some v.

(** An address the guard of [isPublicURL] rejects. *)
Definition nonPublic (ip : net.IP) : bool :=
  net.IsLoopback ip || net.IsLinkLocalMulticast ip
  || net.IsLinkLocalUnicast ip || net.IsPrivate ip.

(** The message of the selector miss. *)
Definition selectorMiss (u selector : string) : string :=
  "could not find content in " ++ u ++ " using selector '" ++ selector ++ "'".

(** The message of a fetch answered with a status other than 200. *)
Definition badStatus (u : string) (status : Z) : string :=
  "failed to fetch URL " ++ u ++ ": HTTP status " ++ itoa status.

(** The platform whose server answers the second request of a worker
    with 404 and an error page. *)
Definition secondFetch404 : Platform :=
  Demo.platform 200 (Demo.pageDoc (Demo.titled "Docs")) 404 Demo.notFoundDoc.

(** Counting over a run: the results the goroutines have produced so far
    (held for sending, or received), and the goroutines that returned. *)
Definition sendingResults (ts : list Thread) : list Result :=
  flat_map (fun t => match t with Sending r => [r] | _ => [] end) ts.

Definition produced (st : RunState) : list Result :=
  (sendingResults (threads st) ++ received st)%list.

Definition tally (f : Result -> bool) (rs : list Result) : nat :=
  length (List.filter f rs).

Definition failed (r : Result) : bool := negb (IsSuccess r).

Definition finishedCount (ts : list Thread) : nat :=
  length (List.filter isFinished ts).

(** What holds of every state of a run over [n] URLs. *)
Definition consistent (n : nat) (st : RunState) : Prop :=
  length (threads st) = n
  /\ successCount (shared st) = Z.of_nat (tally IsSuccess (produced st))
  /\ errorCount (shared st) = Z.of_nat (tally failed (produced st))
  /\ length (failedURLs (shared st)) = tally failed (produced st)
  /\ length (received st) = finishedCount (threads st).

(** The work left in a run: two steps for a goroutine that still runs,
    one for a goroutine that holds its result. *)
Definition remaining (ts : list Thread) : nat :=
  list_sum
    (List.map
       (fun t => match t with Running _ => 2 | Sending _ => 1 | Finished => 0 end)
       ts).

(** ** The constructors of [converter.go]

    [os.MkdirAll] and the three-argument [filepath.Join] belong to the
    standard library; a constructor returns its converter, or its error,
    and the directories it asked [os.MkdirAll] for. *)

Record FileSystem : Type := {
  filepath_Join3 : string -> string -> string -> string;
  os_MkdirAll : string -> option error
}.

Section Constructors.

Variable fs : FileSystem.

Definition NewConverterForJob (downloadID : string)
    : result Converter * list string :=
  if String.eqb downloadID "" then
    (Err "downloadID cannot be empty for a job-based conversion", [])
  else
    let outputDir := filepath_Join3 fs "tmp" "downloads" downloadID in
    match os_MkdirAll fs outputDir with
    | Some err =>
        (Err ("failed to create output directory " ++ outputDir ++ ": " ++ err),
         [outputDir])
    | None =>
        (Ok {| OutputDir := outputDir; DownloadID := downloadID |}, [outputDir])
    end.

Definition NewConverterForCLI (outputDir : string)
    : result Converter * list string :=
  if String.eqb outputDir "" then
    (Err "output directory must be specified for CLI conversion", [])
  else
    match os_MkdirAll fs outputDir with
    | Some err =>
        (Err ("failed to create output directory " ++ outputDir ++ ": " ++ err),
         [outputDir])
    | None => (Ok {| OutputDir := outputDir; DownloadID := "" |}, [outputDir])
    end.

End Constructors.

(** ** [ssrf_mock.go]: the guard of the [integration] build *)

Definition isPublicURL_integration (urlStr : string) : result bool := Ok true.

(** The goroutine of [Convert] with the guard of the build as a
    parameter: [converter.go] is compiled with the [isPublicURL] of the
    default build, or with the one of [ssrf_mock.go]. *)
Definition workerWith (guard : string -> result bool) (P : Platform)
    (c : Converter) (selector u : string) : IO (Update * Result) :=
  match guard u with
  | Err err => ret (failure u ("URL validation failed: " ++ err))
  | Ok false =>
      ret (failure u "SSRF attack suspected: URL resolves to a non-public IP")
  | Ok true =>
      r <- processURL P u selector ;;
      match r with
      | Err err => ret (failure u err)
      | Ok content =>
          g <- Client_Get P u ;;
          match g with
          | Err err =>
              ret (failure u ("failed to fetch URL for metadata: " ++ err))
          | Ok resp =>
              match NewDocumentFromLimitedReader P (Body resp) with
              | Err err =>
                  ret (failure u ("failed to parse HTML for metadata: " ++ err))
              | Ok doc =>
                  let pageMetadata := pageMetadataOf P doc u in
                  let markdownContent := htmlToMarkdown P content in
                  match yaml_Marshal P pageMetadata with
                  | Err err =>
                      ret (failure u ("failed to marshal YAML: " ++ err))
                  | Ok yamlBytes =>
                      let finalContent := compose yamlBytes markdownContent in
                      let filename := filenameOf P doc u in
                      let filePath := filepath_Join P (OutputDir c) filename in
                      w <- WriteFile P filePath finalContent ;;
                      match w with
                      | Some err =>
                          ret (failure u ("failed to write file: " ++ err))
                      | None =>
                          ret (CountSuccess,
                               {| URL := u; FileName := filename;
                                  Content := finalContent; Error := "";
                                  IsSuccess := true |})
                      end
                  end
              end
          end
      end
  end.

Definition worker_integration : Platform -> Converter -> string -> string
    -> IO (Update * Result) :=
  workerWith isPublicURL_integration.

(** ** The download function: [extractJobID]

    A Go function returns, or panics on an index out of range. *)

Inductive outcome (A : Type) : Type :=
| Returns (a : A)
| Panics.
Arguments Returns {A} a.
Arguments Panics {A}.

(** [parts[i]]. *)
Definition index (parts : list string) (i : nat) : outcome string :=
  match parts !! i with
  | Some s => Returns s
  | None => Panics
  end.

(** [strings.Trim(s, "/")]: the cutset is one ASCII byte, so the string
    loses its trailing, then its leading bytes [/]. *)
Fixpoint dropSlashes (l : list ascii) : list ascii :=
  match l with
  | x :: r => if Bytes.isb 47 x then dropSlashes r else l
  | [] => []
  end.

Definition Trim_slash (s : string) : string :=
  string_of_list_ascii
    (dropSlashes (rev (dropSlashes (rev (list_ascii_of_string s))))).

(** [len(parts) >= 4 && parts[2] == "jobs" && parts[4] == "download"] is
    evaluated from the left and stops at the first false operand. *)
Definition extractJobID (path : string) : outcome string :=
  let parts := strings.Split_slash (Trim_slash path) in
  if (4 <=? length parts)%nat then
    match index parts 2 with
    | Panics => Panics
    | Returns p2 =>
        if String.eqb p2 "jobs" then
          match index parts 4 with
          | Panics => Panics
          | Returns p4 =>
              if String.eqb p4 "download" then index parts 3 else Returns ""
          end
        else Returns ""
    end
  else Returns "".

(** ** The queue handler of [functions/process-job]

    [ConversionJob] is the message of [pkg/queue]; [json.Unmarshal] is
    the parameter [unmarshal].  The handler is given the contents of the
    messages of the event; for each job it runs it calls [Convert] and
    drains it.  What it does is the list of its actions, in order. *)

Record ConversionJob : Set := {
  URLs : list string;
  Selector : string;
  Job_DownloadID : string
}.

Inductive Action : Set :=
| Skipped (content : string)
| Converted (c : Converter) (urls : list string) (selector : string)
| GaveUp (downloadID : string).

Section ProcessJob.

Variable fs : FileSystem.
Variable unmarshal : string -> result ConversionJob.

Fixpoint myHandler (messages : list string) : list Action :=
  match messages with
  | [] => []
  | content :: rest =>
      match unmarshal content with
      | Err _ => Skipped content :: myHandler rest
      | Ok job =>
          match fst (NewConverterForJob fs (Job_DownloadID job)) with
          | Err _ => [GaveUp (Job_DownloadID job)]
          | Ok c => Converted c (URLs job) (Selector job) :: myHandler rest
          end
      end
  end.

End ProcessJob.

(** The jobs a list of actions has run. *)
Definition isConverted (a : Action) : bool :=
  match a with Converted _ _ _ => true | _ => false end.

(** ** Worlds in which one call fails *)

Module Faults.

Definition page : html.Node := Demo.pageDoc (Demo.titled "Docs").

Definition url : string := "https://example.com/docs/".

(** The second request of a worker times out. *)
Definition secondFetchFails : Platform :=
  {| unicode_ToLower_Map := unicode_ToLower_Map Demo.plain;
     url_Hostname := url_Hostname Demo.plain;
     net_LookupIP := net_LookupIP Demo.plain;
     http_Get := fun n u =>
       if (n =? 0)%nat then http_Get Demo.plain n u
       else Err "context deadline exceeded";
     html_Parse := html_Parse Demo.plain;
     html_Render := html_Render Demo.plain;
     cascadia_Find := cascadia_Find Demo.plain;
     time_Now_RFC3339 := time_Now_RFC3339 Demo.plain;
     yaml_Marshal := yaml_Marshal Demo.plain;
     filepath_Join := filepath_Join Demo.plain;
     os_WriteFile := os_WriteFile Demo.plain |}.

(** The first request of a worker is refused. *)
Definition firstFetchFails : Platform :=
  {| unicode_ToLower_Map := unicode_ToLower_Map Demo.plain;
     url_Hostname := url_Hostname Demo.plain;
     net_LookupIP := net_LookupIP Demo.plain;
     http_Get := fun _ _ => Err "connection refused";
     html_Parse := html_Parse Demo.plain;
     html_Render := html_Render Demo.plain;
     cascadia_Find := cascadia_Find Demo.plain;
     time_Now_RFC3339 := time_Now_RFC3339 Demo.plain;
     yaml_Marshal := yaml_Marshal Demo.plain;
     filepath_Join := filepath_Join Demo.plain;
     os_WriteFile := os_WriteFile Demo.plain |}.

(** The output directory cannot be written. *)
Definition writeFails : Platform :=
  {| unicode_ToLower_Map := unicode_ToLower_Map Demo.plain;
     url_Hostname := url_Hostname Demo.plain;
     net_LookupIP := net_LookupIP Demo.plain;
     http_Get := http_Get Demo.plain;
     html_Parse := html_Parse Demo.plain;
     html_Render := html_Render Demo.plain;
     cascadia_Find := cascadia_Find Demo.plain;
     time_Now_RFC3339 := time_Now_RFC3339 Demo.plain;
     yaml_Marshal := yaml_Marshal Demo.plain;
     filepath_Join := filepath_Join Demo.plain;
     os_WriteFile := fun _ _ => Some "permission denied" |}.

(** The parser rejects the extracted fragment, and nothing else. *)
Definition renderFails : Platform :=
  {| unicode_ToLower_Map := unicode_ToLower_Map Demo.plain;
     url_Hostname := url_Hostname Demo.plain;
     net_LookupIP := net_LookupIP Demo.plain;
     http_Get := http_Get Demo.plain;
     html_Parse := fun body =>
       if Demo.eqs body Demo.fragment then Err "unexpected EOF"
       else html_Parse Demo.plain body;
     html_Render := html_Render Demo.plain;
     cascadia_Find := cascadia_Find Demo.plain;
     time_Now_RFC3339 := time_Now_RFC3339 Demo.plain;
     yaml_Marshal := yaml_Marshal Demo.plain;
     filepath_Join := filepath_Join Demo.plain;
     os_WriteFile := os_WriteFile Demo.plain |}.

(** A file system that creates every directory, and one that creates
    none. *)
Definition disk : FileSystem :=
  {| filepath_Join3 := fun a b d => a ++ "/" ++ b ++ "/" ++ d;
     os_MkdirAll := fun _ => None |}.

Definition readOnlyDisk : FileSystem :=
  {| filepath_Join3 := fun a b d => a ++ "/" ++ b ++ "/" ++ d;
     os_MkdirAll := fun _ => Some "read-only file system" |}.

End Faults.

(** The URLs of the goroutines that have not yet left their critical
    section. *)
Definition runningURLs (ts : list Thread) : list string :=
  flat_map (fun t => match t with Running u => [u] | _ => [] end) ts.

(** Every URL of the batch is either still running or has its result,
    and the list of failed URLs names the failed results. *)
Definition accounted (urls : list string) (st : RunState) : Prop :=
  (List.map URL (produced st) ++ runningURLs (threads st))%list ≡ₚ urls
  /\ failedURLs (shared st) ≡ₚ List.map URL (List.filter failed (produced st)).

(** A decoder for three messages: a job, a job without identifier, and
    anything else, which is no JSON. *)
Definition demoUnmarshal (content : string) : result ConversionJob :=
  if String.eqb content "job-a" then
    Ok {| URLs := [Faults.url]; Selector := "#main"; Job_DownloadID := "a" |}
  else if String.eqb content "job-b" then
    Ok {| URLs := [Faults.url]; Selector := "#main"; Job_DownloadID := "b" |}
  else if String.eqb content "job-without-id" then
    Ok {| URLs := [Faults.url]; Selector := "#main"; Job_DownloadID := "" |}
  else Err "invalid character".

(** * Properties *)

(** ** Bytes and [SanitizeFilename] *)

Section SanitizeFacts.

Import Bytes.

Lemma map_id_on (f : ascii -> ascii) (s : string) :
  all (fun c => bool_decide (f c = c)) s = true -> map f s = s.
Proof.
  induction s as [|c t IH]; simpl; [reflexivity|].
  rewrite andb_true_iff, bool_decide_eq_true.
  intros [Hc Ht]. rewrite Hc, IH; auto.
Qed.

Lemma all_impl (f g : ascii -> bool) (s : string) :
  (forall c, f c = true -> g c = true) -> all f s = true -> all g s = true.
Proof.
  intros Hfg. induction s as [|c t IH]; simpl; [reflexivity|].
  rewrite !andb_true_iff. intros [Hc Ht]. auto.
Qed.

Lemma all_filter (f : ascii -> bool) (s : string) : all f (filter f s) = true.
Proof.
  induction s as [|c t IH]; simpl; [reflexivity|].
  destruct (f c) eqn:Hc; simpl; [rewrite Hc|]; auto.
Qed.

Lemma filter_id_on (f : ascii -> bool) (s : string) :
  all f s = true -> filter f s = s.
Proof.
  induction s as [|c t IH]; simpl; [reflexivity|].
  rewrite andb_true_iff. intros [Hc Ht]. rewrite Hc, IH; auto.
Qed.

Lemma filter_none (f : ascii -> bool) (s : string) :
  all (fun c => negb (f c)) s = true -> filter f s = "".
Proof.
  induction s as [|c t IH]; simpl; [reflexivity|].
  rewrite andb_true_iff, negb_true_iff. intros [Hc Ht]. rewrite Hc; auto.
Qed.

Lemma any_false_on (f : ascii -> bool) (s : string) :
  all (fun c => negb (f c)) s = true -> any f s = false.
Proof.
  induction s as [|c t IH]; simpl; [reflexivity|].
  rewrite andb_true_iff, negb_true_iff. intros [Hc Ht]. rewrite Hc; auto.
Qed.

(** A byte of the class [[a-z0-9_]] is ASCII, is no capital and is no
    space. *)
Lemma wordByte_plain (c : ascii) :
  regexp.wordByte c = true ->
  (code c <? 128)%N = true /\ between 65 90 c = false /\ isb 32 c = false.
Proof.
  unfold regexp.wordByte, between, isb.
  rewrite !orb_true_iff, !andb_true_iff, !N.leb_le, N.eqb_eq.
  intros H. rewrite N.ltb_lt, andb_false_iff, !N.leb_gt, N.eqb_neq. lia.
Qed.

Lemma sanitize_fixed (mapLower : string -> string) (s : string) :
  all regexp.wordByte s = true -> SanitizeFilename mapLower s = s.
Proof.
  intros Hs. unfold SanitizeFilename, strings.ToLower.
  assert (Hascii : strings.isASCII s = true).
  { revert Hs. apply all_impl. intros c Hc. apply wordByte_plain in Hc. tauto. }
  assert (Hup : strings.hasUpper s = false).
  { apply any_false_on. revert Hs. apply all_impl. intros c Hc.
    apply wordByte_plain in Hc. apply negb_true_iff. tauto. }
  rewrite Hascii, Hup. simpl.
  unfold strings.ReplaceAll_space_underscore. rewrite map_id_on.
  - apply filter_id_on, Hs.
  - revert Hs. apply all_impl. intros c Hc. apply wordByte_plain in Hc.
    destruct Hc as (_ & _ & ->). apply bool_decide_eq_true. reflexivity.
Qed.

End SanitizeFacts.

(** C9. [SanitizeFilename] is idempotent, and its output contains only
    characters of [[a-z0-9_]], whatever the input string and whatever the
    Unicode lower-casing does to non-ASCII input. *)
Theorem C9_SanitizeFilename_idempotent (mapLower : string -> string) (s : string) :
  SanitizeFilename mapLower (SanitizeFilename mapLower s)
  = SanitizeFilename mapLower s
  /\ Bytes.all regexp.wordByte (SanitizeFilename mapLower s) = true.
Proof.
  assert (H : Bytes.all regexp.wordByte (SanitizeFilename mapLower s) = true)
    by apply all_filter.
  split; [apply sanitize_fixed, H | exact H].
Qed.

(** ** [strings.Split] and the fallback file name *)

Section SplitFacts.

Import Bytes.

Lemma Split_slash_nonempty (s : string) : strings.Split_slash s <> [].
Proof.
  induction s as [|c t IH]; simpl; [discriminate|].
  destruct (isb 47 c); [discriminate|].
  destruct (strings.Split_slash t); [contradiction | discriminate].
Qed.

Lemma Split_slash_noSlash (s : string) :
  noSlash s = true -> strings.Split_slash s = [s].
Proof.
  unfold noSlash. induction s as [|c t IH]; simpl; [reflexivity|].
  rewrite andb_true_iff, negb_true_iff. intros [Hc Ht].
  rewrite Hc, (IH Ht). reflexivity.
Qed.

(** The pieces of [pre/t] are those of [pre] followed by those of [t]. *)
Lemma Split_slash_app (pre t : string) :
  strings.Split_slash (pre ++ String "/" t)
  = (strings.Split_slash pre ++ strings.Split_slash t)%list.
Proof.
  induction pre as [|c p IH]; simpl; [reflexivity|].
  destruct (isb 47 c); [rewrite IH; reflexivity|].
  rewrite IH. pose proof (Split_slash_nonempty p) as Hne.
  destruct (strings.Split_slash p); [contradiction | reflexivity].
Qed.

Lemma nth_last (l : list string) (x : string) :
  nth (length (l ++ [x]) - 1) (l ++ [x])%list "" = x.
Proof.
  rewrite length_app. simpl.
  replace (length l + 1 - 1)%nat with (length l) by lia.
  rewrite app_nth2 by lia. rewrite Nat.sub_diag. reflexivity.
Qed.

Lemma nth_before_last (l : list string) (x y : string) :
  nth (length (l ++ [x; y]) - 2) (l ++ [x; y])%list "" = x.
Proof.
  rewrite length_app. simpl.
  replace (length l + 2 - 2)%nat with (length l) by lia.
  rewrite app_nth2 by lia. rewrite Nat.sub_diag. reflexivity.
Qed.

Lemma eqb_empty_false (s : string) : s <> "" -> String.eqb s "" = false.
Proof. destruct s; [contradiction | reflexivity]. Qed.

End SplitFacts.

Section FallbackName.

Variable P : Platform.
Variable doc : html.Node.
Hypothesis no_title : titleOf doc = "".

Let sanitize := SanitizeFilename (unicode_ToLower_Map P).

Lemma fallback_last (pre seg : string) :
  noSlash seg = true -> seg <> "" ->
  getSanitizedTitle P doc (pre ++ "/" ++ seg) = sanitize seg.
Proof.
  intros Hseg Hne. unfold getSanitizedTitle. rewrite no_title. simpl.
  change (pre ++ "/" ++ seg) with (pre ++ String "/" seg).
  rewrite Split_slash_app, (Split_slash_noSlash seg Hseg).
  rewrite nth_last, length_app; simpl.
  destruct (0 <? length (strings.Split_slash pre) + 1)%nat eqn:E;
    [|apply Nat.ltb_ge in E; lia].
  rewrite ?(eqb_empty_false seg Hne); cbn [andb].
  rewrite ?(eqb_empty_false seg Hne). reflexivity.
Qed.

Lemma fallback_before_last (pre seg : string) :
  noSlash seg = true -> seg <> "" ->
  getSanitizedTitle P doc (pre ++ "/" ++ seg ++ "/") = sanitize seg.
Proof.
  intros Hseg Hne. unfold getSanitizedTitle. rewrite no_title. simpl.
  change (pre ++ "/" ++ seg ++ "/") with (pre ++ String "/" (seg ++ String "/" "")).
  rewrite Split_slash_app, Split_slash_app, (Split_slash_noSlash seg Hseg).
  simpl.
  change ([seg; ""]) with ([seg] ++ [""])%list.
  rewrite app_assoc, nth_last, <- app_assoc. simpl.
  rewrite nth_before_last, length_app; simpl.
  destruct (0 <? length (strings.Split_slash pre) + 2)%nat eqn:E;
    [|apply Nat.ltb_ge in E; lia].
  destruct (1 <? length (strings.Split_slash pre) + 2)%nat eqn:E';
    [|apply Nat.ltb_ge in E'; lia].
  rewrite ?(eqb_empty_false seg Hne); cbn [andb].
  rewrite ?(eqb_empty_false seg Hne). reflexivity.
Qed.

Lemma fallback_untitled (pre : string) :
  getSanitizedTitle P doc (pre ++ "//") = "untitled".
Proof.
  unfold getSanitizedTitle. rewrite no_title. simpl.
  change (pre ++ "//") with (pre ++ String "/" ("" ++ String "/" "")).
  rewrite Split_slash_app, Split_slash_app. simpl.
  change ([""; ""]) with ([""] ++ [""])%list.
  rewrite app_assoc, nth_last, <- app_assoc. simpl.
  rewrite nth_before_last. simpl.
  rewrite length_app; simpl.
  destruct (0 <? length (strings.Split_slash pre) + 2)%nat eqn:E;
    [|apply Nat.ltb_ge in E; lia].
  destruct (1 <? length (strings.Split_slash pre) + 2)%nat eqn:E';
    [reflexivity | apply Nat.ltb_ge in E'; lia].
Qed.

End FallbackName.

(** C5, as the code has it.  For a document without a title the file name
    is the sanitized text after the last [/] of the URL string, or, when
    that text is empty, the sanitized text between the last two [/], plus
    [.md]; when both are empty it is [untitled.md].  The URL is split as a
    string, so [https://example.com/docs/] gives [docs.md] and
    [https://example.com/], whose text between the last two [/] is the
    host, gives [examplecom.md]. *)
Theorem C5_fallback_filename (P : Platform) (doc : html.Node) :
  titleOf doc = "" ->
  (forall pre seg : string, noSlash seg = true -> seg <> "" ->
     filenameOf P doc (pre ++ "/" ++ seg)
     = SanitizeFilename (unicode_ToLower_Map P) seg ++ ".md")
  /\ (forall pre seg : string, noSlash seg = true -> seg <> "" ->
        filenameOf P doc (pre ++ "/" ++ seg ++ "/")
        = SanitizeFilename (unicode_ToLower_Map P) seg ++ ".md")
  /\ (forall pre : string, filenameOf P doc (pre ++ "//") = "untitled.md")
  /\ filenameOf P doc "https://example.com/docs/" = "docs.md"
  /\ filenameOf P doc "https://example.com/" = "examplecom.md".
Proof.
  intros Hno. unfold filenameOf. repeat split.
  - intros pre seg Hseg Hne. rewrite fallback_last; auto.
  - intros pre seg Hseg Hne. rewrite fallback_before_last; auto.
  - intros pre. rewrite fallback_untitled; auto.
  - unfold getSanitizedTitle. rewrite Hno. vm_compute. reflexivity.
  - unfold getSanitizedTitle. rewrite Hno. vm_compute. reflexivity.
Qed.

Lemma C5_fallback_filename_witness :
  titleOf (Demo.pageDoc []) = ""
  /\ filenameOf Demo.plain (Demo.pageDoc []) "https://example.com/docs/"
     = "docs.md".
Proof.
  split; [reflexivity|].
  apply (C5_fallback_filename Demo.plain (Demo.pageDoc [])). reflexivity.
Defined.

(** C5 as the specification words it fails: the root URL of a site does
    not give [untitled.md]. *)
Lemma C5_root_url_not_untitled :
  exists (P : Platform) (doc : html.Node),
    titleOf doc = ""
    /\ filenameOf P doc "https://example.com/" <> "untitled.md".
Proof.
  exists Demo.plain, (Demo.pageDoc []). split; [reflexivity|].
  vm_compute. discriminate.
Qed.

(** ** Titles that sanitize to nothing *)

Lemma symbolByte_parts (c : ascii) :
  symbolByte c = true ->
  (Bytes.code c <? 128)%N = true /\ regexp.wordByte c = false
  /\ Bytes.between 65 90 c = false /\ Bytes.isb 32 c = false.
Proof.
  unfold symbolByte. rewrite !andb_true_iff, !negb_true_iff. tauto.
Qed.

Lemma sanitize_symbols (mapLower : string -> string) (t : string) :
  Bytes.all symbolByte t = true -> SanitizeFilename mapLower t = "".
Proof.
  intros Ht. unfold SanitizeFilename, strings.ToLower.
  assert (Hascii : strings.isASCII t = true).
  { revert Ht. apply all_impl. intros c Hc. apply symbolByte_parts in Hc. tauto. }
  assert (Hup : strings.hasUpper t = false).
  { apply any_false_on. revert Ht. apply all_impl. intros c Hc.
    apply symbolByte_parts in Hc. apply negb_true_iff. tauto. }
  rewrite Hascii, Hup. simpl.
  unfold strings.ReplaceAll_space_underscore. rewrite map_id_on.
  - apply filter_none. revert Ht. apply all_impl. intros c Hc.
    apply symbolByte_parts in Hc. apply negb_true_iff. tauto.
  - revert Ht. apply all_impl. intros c Hc. apply symbolByte_parts in Hc.
    destruct Hc as (_ & _ & _ & ->). apply bool_decide_eq_true. reflexivity.
Qed.

(** C10, as the code has it.  When the trimmed title is not empty the
    name is the sanitized title and the URL is not consulted, so the
    [untitled] fallback cannot apply; and when that title consists solely
    of ASCII characters outside [[A-Za-z0-9_ ]], as [!!!] does, the
    sanitized name is empty and the file name is exactly [.md]. *)
Theorem C10_symbol_title_gives_dot_md (P : Platform) (doc : html.Node)
    (u : string) :
  titleOf doc <> "" ->
  getSanitizedTitle P doc u
  = SanitizeFilename (unicode_ToLower_Map P) (titleOf doc)
  /\ (Bytes.all symbolByte (titleOf doc) = true ->
      getSanitizedTitle P doc u = "" /\ filenameOf P doc u = ".md").
Proof.
  intros Hne.
  assert (H : getSanitizedTitle P doc u
              = SanitizeFilename (unicode_ToLower_Map P) (titleOf doc)).
  { unfold getSanitizedTitle. rewrite (eqb_empty_false _ Hne). reflexivity. }
  split; [exact H|].
  intros Hsym. unfold filenameOf. rewrite H, sanitize_symbols by exact Hsym.
  split; reflexivity.
Qed.

Lemma C10_symbol_title_gives_dot_md_witness :
  titleOf (Demo.pageDoc (Demo.titled "!!!")) <> ""
  /\ filenameOf Demo.plain (Demo.pageDoc (Demo.titled "!!!"))
       "https://example.com/docs/" = ".md".
Proof.
  assert (Hne : titleOf (Demo.pageDoc (Demo.titled "!!!")) <> "")
    by (vm_compute; discriminate).
  split; [exact Hne|].
  apply (C10_symbol_title_gives_dot_md Demo.plain _ "https://example.com/docs/" Hne).
  vm_compute. reflexivity.
Defined.

(** C10 as the specification words it fails: the capitals are outside
    [[a-z0-9_ ]], and a title made of them keeps its letters. *)
Lemma C10_capitals_survive :
  exists (P : Platform) (doc : html.Node) (u : string),
    rawTitle doc <> ""
    /\ Bytes.all outsideClass (rawTitle doc) = true
    /\ filenameOf P doc u = "abc.md"
    /\ filenameOf P doc u <> ".md".
Proof.
  exists Demo.plain, (Demo.pageDoc (Demo.titled "ABC")), "https://example.com/docs/".
  repeat split; vm_compute; discriminate || reflexivity.
Qed.

(** ** The Markdown of the sample fragment *)

(** C4, as the code has it.  The renderer visits the heading, the
    paragraph and the anchor one after the other: the paragraph is written
    with its flattened text, and the anchor is written once more, as
    [[link](https://x)], after the paragraph.  The fragment renders to
    [# Title\n\nBody link\n\n[link](https://x)]. *)
Theorem C4_fragment_markdown (P : Platform) :
  html_Parse P Demo.fragment = Ok Demo.fragmentDoc ->
  htmlToMarkdown P Demo.fragment = fragmentMarkdown.
Proof.
  intros Hparse. unfold htmlToMarkdown. rewrite Hparse.
  vm_compute. reflexivity.
Qed.

Lemma C4_fragment_markdown_witness :
  html_Parse Demo.plain Demo.fragment = Ok Demo.fragmentDoc
  /\ htmlToMarkdown Demo.plain Demo.fragment = fragmentMarkdown.
Proof.
  split; [reflexivity|].
  apply (C4_fragment_markdown Demo.plain). reflexivity.
Defined.

(** C4 as the specification words it fails: the output is not
    [# Title\n\nBody link]. *)
Lemma C4_anchor_follows_paragraph :
  exists P : Platform,
    html_Parse P Demo.fragment = Ok Demo.fragmentDoc
    /\ htmlToMarkdown P Demo.fragment
       <> "# Title" ++ Bytes.LF ++ Bytes.LF ++ "Body link".
Proof.
  exists Demo.plain. split; [reflexivity|].
  vm_compute. discriminate.
Qed.

(** ** Trimming *)

Section ScanFacts.

Variable s1 : ascii -> bool.
Variable s2 : ascii -> ascii -> bool.
Variable s3 : ascii -> ascii -> ascii -> bool.

Let drop := strings.dropSpaces s1 s2 s3.
Let ahead := strings.spaceAhead s1 s2 s3.

(** Both facts follow the recursion of the scan, which steps over one,
    two or three bytes: induction on a bound of the length. *)
Lemma dropSpaces_bounded (n : nat) (l : list ascii) :
  (length l <= n)%nat ->
  ahead (drop l) = false /\ exists p, l = (p ++ drop l)%list.
Proof.
  revert l. induction n as [|n IH]; intros l Hlen.
  - destruct l; [|simpl in Hlen; lia]. split; [reflexivity | exists []; reflexivity].
  - destruct l as [|x r]; [split; [reflexivity | exists []; reflexivity]|].
    simpl in Hlen. unfold drop, ahead. simpl.
    destruct (s1 x) eqn:H1.
    { destruct (IH r ltac:(lia)) as [Ha [p Hp]]. split; [exact Ha|].
      exists (x :: p). simpl. f_equal. exact Hp. }
    destruct r as [|y r'].
    { simpl. rewrite H1. split; [reflexivity | exists []; reflexivity]. }
    simpl in Hlen. destruct (s2 x y) eqn:H2.
    { destruct (IH r' ltac:(lia)) as [Ha [p Hp]]. split; [exact Ha|].
      exists (x :: y :: p). simpl. do 2 f_equal. exact Hp. }
    destruct r' as [|z r''].
    { simpl. rewrite H1, H2. split; [reflexivity | exists []; reflexivity]. }
    simpl in Hlen. destruct (s3 x y z) eqn:H3.
    { destruct (IH r'' ltac:(lia)) as [Ha [p Hp]]. split; [exact Ha|].
      exists (x :: y :: z :: p). simpl. do 3 f_equal. exact Hp. }
    simpl. rewrite H1, H2, H3. split; [reflexivity | exists []; reflexivity].
Qed.

Lemma dropSpaces_clean (l : list ascii) : ahead (drop l) = false.
Proof. apply (dropSpaces_bounded (length l) l). lia. Qed.

Lemma dropSpaces_suffix (l : list ascii) : exists p, l = (p ++ drop l)%list.
Proof. apply (dropSpaces_bounded (length l) l). lia. Qed.

(** A space at the head of a list is still there when the list grows at
    its end. *)
Lemma spaceAhead_app (a z : list ascii) :
  ahead a = true -> ahead (a ++ z) = true.
Proof.
  unfold ahead.
  destruct a as [|x [|y [|w a]]]; simpl; try discriminate.
  - rewrite orb_false_r. intros ->. reflexivity.
  - rewrite orb_false_r. intros H. apply orb_true_iff in H as [->| ->];
      [reflexivity | apply orb_true_iff; right; reflexivity].
  - auto.
Qed.

End ScanFacts.

(** [String.append] does not unfold under [simpl]: its second equation. *)
Lemma append_cons (x : ascii) (a b : string) :
  String x a ++ b = String x (a ++ b).
Proof. reflexivity. Qed.

Lemma string_of_list_ascii_app (a b : list ascii) :
  string_of_list_ascii (a ++ b)
  = string_of_list_ascii a ++ string_of_list_ascii b.
Proof.
  induction a as [|x a IH]; simpl; [reflexivity|].
  rewrite append_cons, IH. reflexivity.
Qed.

Lemma string_app_assoc (a b d : string) : (a ++ b) ++ d = a ++ b ++ d.
Proof.
  induction a as [|x a IH]; [reflexivity|].
  rewrite !append_cons, IH. reflexivity.
Qed.

(** [trimRight] keeps a prefix. *)
Lemma trimRight_prefix (l : list ascii) :
  exists q, l = (strings.trimRight l ++ q)%list.
Proof.
  unfold strings.trimRight.
  destruct (dropSpaces_suffix strings.asciiSpace strings.space2r
              strings.space3r (rev l)) as [p Hp].
  exists (rev p). rewrite <- rev_app_distr, <- Hp, rev_involutive. reflexivity.
Qed.

(** What [strings.TrimSpace] returns is a piece of its argument. *)
Lemma TrimSpace_piece (s : string) :
  exists p q : string, s = p ++ strings.TrimSpace s ++ q.
Proof.
  unfold strings.TrimSpace, strings.trimLeft.
  destruct (dropSpaces_suffix strings.asciiSpace strings.space2 strings.space3
              (list_ascii_of_string s)) as [p Hp].
  destruct (trimRight_prefix
              (strings.dropSpaces strings.asciiSpace strings.space2
                 strings.space3 (list_ascii_of_string s))) as [q Hq].
  exists (string_of_list_ascii p), (string_of_list_ascii q).
  rewrite <- !string_of_list_ascii_app, <- Hq, <- Hp.
  symmetry. apply string_of_list_ascii_of_string.
Qed.

(** What [strings.TrimSpace] returns neither starts nor ends with a
    space. *)
Lemma TrimSpace_trimmed (s : string) : strings.trimmed (strings.TrimSpace s).
Proof.
  unfold strings.trimmed, strings.startsWithSpace, strings.endsWithSpace,
    strings.TrimSpace.
  rewrite list_ascii_of_string_of_list_ascii.
  set (m := strings.trimLeft (list_ascii_of_string s)).
  split.
  - destruct (strings.spaceAhead strings.asciiSpace strings.space2
                strings.space3 (strings.trimRight m)) eqn:E; [|reflexivity].
    destruct (trimRight_prefix m) as [q Hq].
    apply (spaceAhead_app _ _ _ _ q) in E. rewrite <- Hq in E.
    unfold m, strings.trimLeft in E. rewrite dropSpaces_clean in E.
    discriminate.
  - unfold strings.trimRight. rewrite rev_involutive. apply dropSpaces_clean.
Qed.

(** ** Runs of newlines *)

Section NewlineFacts.

Import Bytes.

Lemma collapse_no_triple (s : string) (k : nat) :
  (k <= 2)%nat -> tripleFrom k (regexp.collapseFrom k s) = false.
Proof.
  revert k. induction s as [|c t IH]; intros k Hk; simpl; [reflexivity|].
  destruct (isb 10 c) eqn:Hc.
  - destruct (k <? 2)%nat eqn:Hlt.
    + apply Nat.ltb_lt in Hlt.
      destruct k as [|[|k]]; [| |lia]; simpl; rewrite Hc; apply IH; lia.
    + apply IH, Hk.
  - simpl. rewrite Hc. apply IH. lia.
Qed.

Lemma triple_found (p q : string) (k : nat) :
  tripleFrom k (p ++ LF ++ LF ++ LF ++ q) = true.
Proof.
  revert k. induction p as [|c t IH]; intros k.
  - destruct k as [|[|k]]; reflexivity.
  - change (String c t ++ LF ++ LF ++ LF ++ q)
      with (String c (t ++ LF ++ LF ++ LF ++ q)).
    simpl. destruct (isb 10 c); [|apply IH].
    destruct k as [|[|k]]; [apply IH | apply IH | reflexivity].
Qed.

(** After the replacement no three newlines follow one another. *)
Lemma ReplaceAll_newlines_no_triple (s : string) :
  ~ hasTripleNewline (regexp.ReplaceAll_newlines s).
Proof.
  intros (p & q & H).
  pose proof (collapse_no_triple s 0 ltac:(lia)) as Hfree.
  fold (regexp.ReplaceAll_newlines s) in Hfree.
  rewrite H, triple_found in Hfree. discriminate.
Qed.

(** A piece of a string without a triple newline has none either. *)
Lemma no_triple_piece (s t p q : string) :
  s = p ++ t ++ q -> ~ hasTripleNewline s -> ~ hasTripleNewline t.
Proof.
  intros Hs Hfree (p' & q' & Ht). apply Hfree.
  exists (p ++ p'), (q' ++ q). rewrite Hs, Ht.
  rewrite !string_app_assoc. reflexivity.
Qed.

End NewlineFacts.

(** The Markdown body has no run of three newlines and is trimmed. *)
Lemma htmlToMarkdown_shape (P : Platform) (htmlContent : string) :
  ~ hasTripleNewline (htmlToMarkdown P htmlContent)
  /\ strings.trimmed (htmlToMarkdown P htmlContent).
Proof.
  unfold htmlToMarkdown. destruct (html_Parse P htmlContent) as [doc|e].
  - cbv zeta. split; [|apply TrimSpace_trimmed].
    match goal with
    | |- ~ hasTripleNewline (strings.TrimSpace ?x) =>
        destruct (TrimSpace_piece x) as (p & q & Hpq);
        apply (no_triple_piece x _ p q Hpq)
    end.
    apply ReplaceAll_newlines_no_triple.
  - split.
    + intros (p & q & H). destruct p; discriminate.
    + split; reflexivity.
Qed.


(** ** The worker *)

Section WorkerFacts.

Variable P : Platform.
Variable c : Converter.
Variables selector u : string.

(** [processURL] sends exactly one request. *)
Lemma processURL_log (log : list Event) :
  snd (processURL P u selector log) = (log ++ [EvGet u])%list.
Proof.
  unfold processURL, bind, Client_Get, ret. repeat case_match; reflexivity.
Qed.

(** What a successful worker has done, read off its branches. *)
Lemma worker_success (up : Update) (r : Result) (log : list Event) :
  run (worker P c selector u) = (up, r, log) ->
  IsSuccess r = true ->
  exists (content : string) (resp : Response) (doc : html.Node) (yamlBytes : string),
    isPublicURL P u = Ok true
    /\ run (processURL P u selector) = (Ok content, [EvGet u])
    /\ http_Get P 1 u = Ok resp
    /\ NewDocumentFromLimitedReader P (Body resp) = Ok doc
    /\ yaml_Marshal P (pageMetadataOf P doc u) = Ok yamlBytes
    /\ up = CountSuccess
    /\ r = {| URL := u; FileName := filenameOf P doc u;
              Content := compose yamlBytes (htmlToMarkdown P content);
              Error := ""; IsSuccess := true |}
    /\ log = [ EvGet u; EvGet u;
               EvWriteFile (filepath_Join P (OutputDir c) (filenameOf P doc u))
                 (compose yamlBytes (htmlToMarkdown P content)) ].
Proof.
  unfold run, worker, bind. intros H Hs.
  pose proof (processURL_log []) as Hlog.
  destruct (processURL P u selector []) as [r0 l] eqn:Hp. simpl in Hlog. subst l.
  unfold Client_Get, WriteFile, ret, failure in H.
  repeat case_match; simplify_eq/=.
  eexists _, _, _, _. repeat split; eauto.
Qed.

(** The counter a worker bumps agrees with the result it sends. *)
Lemma worker_update_matches (up : Update) (r : Result) (log : list Event) :
  run (worker P c selector u) = (up, r, log) ->
  (up = CountSuccess /\ IsSuccess r = true)
  \/ (up = CountError u /\ IsSuccess r = false).
Proof.
  unfold run, worker, bind. intros H.
  destruct (processURL P u selector []) as [r0 l].
  unfold Client_Get, WriteFile, ret, failure in H.
  repeat case_match; simplify_eq/=; auto.
Qed.

End WorkerFacts.

(** C7. The file a successful worker writes is its [Content]: a [---]
    line, the marshalled metadata, a second [---] line, a blank line and
    the Markdown body; the body holds no run of three newlines and has no
    space at either end. *)
Theorem C7_written_file_shape (P : Platform) (c : Converter)
    (selector u : string) (up : Update) (r : Result) (log : list Event) :
  run (worker P c selector u) = (up, r, log) ->
  IsSuccess r = true ->
  exists (path yamlBytes body content : string) (doc : html.Node),
    log = [EvGet u; EvGet u; EvWriteFile path (Content r)]
    /\ Content r
       = "---" ++ Bytes.LF ++ yamlBytes ++ "---" ++ Bytes.LF ++ Bytes.LF ++ body
    /\ yaml_Marshal P (pageMetadataOf P doc u) = Ok yamlBytes
    /\ body = htmlToMarkdown P content
    /\ ~ hasTripleNewline body
    /\ strings.trimmed body.
Proof.
  intros Hrun Hok.
  destruct (worker_success P c selector u up r log Hrun Hok)
    as (content & resp & doc & yamlBytes & _ & _ & _ & _ & Hy & _ & -> & ->).
  exists (filepath_Join P (OutputDir c) (filenameOf P doc u)), yamlBytes,
    (htmlToMarkdown P content), content, doc.
  pose proof (htmlToMarkdown_shape P content) as [Hfree Htrim].
  repeat split; auto; apply Htrim.
Qed.

Lemma C7_written_file_shape_witness :
  exists (path yamlBytes body content : string) (doc : html.Node),
    snd (run (worker Demo.plain Demo.job "#main" "https://example.com/docs/"))
    = [ EvGet "https://example.com/docs/"; EvGet "https://example.com/docs/";
        EvWriteFile path
          (Content (snd (fst (run (worker Demo.plain Demo.job "#main"
                                     "https://example.com/docs/"))))) ]
    /\ Content (snd (fst (run (worker Demo.plain Demo.job "#main"
                                 "https://example.com/docs/"))))
       = "---" ++ Bytes.LF ++ yamlBytes ++ "---" ++ Bytes.LF ++ Bytes.LF ++ body
    /\ yaml_Marshal Demo.plain
         (pageMetadataOf Demo.plain doc "https://example.com/docs/")
       = Ok yamlBytes
    /\ body = htmlToMarkdown Demo.plain content
    /\ ~ hasTripleNewline body
    /\ strings.trimmed body.
Proof.
  apply (C7_written_file_shape Demo.plain Demo.job "#main"
           "https://example.com/docs/"
           (fst (fst (run (worker Demo.plain Demo.job "#main"
                             "https://example.com/docs/"))))).
  - vm_compute. reflexivity.
  - vm_compute. reflexivity.
Defined.

(** ** The metadata *)

Section MetadataFacts.

Import goquery.

(** The loop over the [<meta>] elements touches one key only. *)
Lemma setFromContent_other (key k : string) (l : Selection)
    (m : gmap string string) :
  key <> k -> fold_left (setFromContent key) l m !! k = m !! k.
Proof.
  intros Hne. revert m. induction l as [|s l IH]; intros m; simpl; [reflexivity|].
  rewrite IH. unfold setFromContent.
  destruct (nodeAttr "content" (snd s)); [|reflexivity].
  apply lookup_insert_ne, Hne.
Qed.

(** The key is set after the loop iff it was set before or some element
    has a [content] attribute. *)
Lemma setFromContent_key (key : string) (l : Selection)
    (m : gmap string string) :
  is_Some (fold_left (setFromContent key) l m !! key)
  <-> is_Some (m !! key)
      \/ exists s v, In s l /\ nodeAttr "content" (snd s) = Some v.
Proof.
  revert m. induction l as [|s l IH]; intros m; simpl.
  - split; [auto | intros [H | (s & v & [] & _)]; exact H].
  - rewrite IH. unfold setFromContent.
    destruct (nodeAttr "content" (snd s)) as [v|] eqn:Hv.
    + split; [|intros _; left; rewrite lookup_insert_eq; eauto].
      intros _. right. exists s, v. auto.
    + split.
      * intros [H | (s' & v & Hin & Hs')]; [auto|]. right. exists s', v. auto.
      * intros [H | (s' & v & [<- | Hin] & Hs')]; [auto | congruence |].
        right. exists s', v. auto.
Qed.

End MetadataFacts.

(** C8. [getMetadata] is a total function; its map always holds [source],
    the URL; it holds [title] exactly when the trimmed title text is not
    empty, and [description] and [keywords] exactly when a [<meta>]
    element of that name has a [content] attribute.  The metadata a
    successful worker marshals into the file holds [retrieved_at] and
    [source] as well. *)
Theorem C8_metadata_keys (P : Platform) (doc : html.Node) (url : string) :
  getMetadata doc url !! "source" = Some url
  /\ (is_Some (getMetadata doc url !! "title") <-> titleOf doc <> "")
  /\ (titleOf doc <> "" -> getMetadata doc url !! "title" = Some (titleOf doc))
  /\ (is_Some (getMetadata doc url !! "description")
      <-> hasMetaContent "description" doc)
  /\ (is_Some (getMetadata doc url !! "keywords")
      <-> hasMetaContent "keywords" doc)
  /\ (forall (c : Converter) (selector : string) (up : Update) (r : Result)
        (log : list Event),
        run (worker P c selector url) = (up, r, log) ->
        IsSuccess r = true ->
        exists (page : html.Node) (yamlBytes body : string),
          yaml_Marshal P (pageMetadataOf P page url) = Ok yamlBytes
          /\ Content r = compose yamlBytes body
          /\ pageMetadataOf P page url !! "retrieved_at"
             = Some (time_Now_RFC3339 P)
          /\ pageMetadataOf P page url !! "source" = Some url).
Proof.
  assert (Hsrc : forall d, getMetadata d url !! "source" = Some url).
  { intros d. unfold getMetadata. cbv zeta.
    rewrite !setFromContent_other by discriminate.
    destruct (negb (String.eqb (titleOf d) "")).
    - rewrite lookup_insert_ne by discriminate. apply lookup_insert_eq.
    - apply lookup_insert_eq. }
  assert (Htitle : getMetadata doc url !! "title"
                   = if String.eqb (titleOf doc) "" then None
                     else Some (titleOf doc)).
  { unfold getMetadata. cbv zeta.
    rewrite !setFromContent_other by discriminate.
    destruct (String.eqb (titleOf doc) ""); simpl.
    - rewrite lookup_insert_ne by discriminate. apply lookup_empty.
    - apply lookup_insert_eq. }
  split; [apply Hsrc|]. split; [|split; [|split; [|split]]].
  - rewrite Htitle. destruct (String.eqb_spec (titleOf doc) "") as [->|Hne].
    + split; [intros [x Hx]; discriminate | intros H; contradiction].
    + split; [intros _; exact Hne | eauto].
  - intros Hne. rewrite Htitle, (eqb_empty_false _ Hne). reflexivity.
  - unfold getMetadata. cbv zeta.
    rewrite setFromContent_other by discriminate.
    rewrite setFromContent_key. unfold hasMetaContent.
    split; [intros [H | H]; [|exact H] | intros H; right; exact H].
    destruct (negb (String.eqb (titleOf doc) ""));
      rewrite ?lookup_insert_ne in H by discriminate;
      rewrite lookup_empty in H; destruct H; discriminate.
  - unfold getMetadata. cbv zeta.
    rewrite setFromContent_key. unfold hasMetaContent.
    split; [intros [H | H]; [|exact H] | intros H; right; exact H].
    rewrite setFromContent_other in H by discriminate.
    destruct (negb (String.eqb (titleOf doc) ""));
      rewrite ?lookup_insert_ne in H by discriminate;
      rewrite lookup_empty in H; destruct H; discriminate.
  - intros c selector up r log Hrun Hok.
    destruct (worker_success P c selector url up r log Hrun Hok)
      as (content & resp & page & yamlBytes & _ & _ & _ & _ & Hy & _ & -> & _).
    exists page, yamlBytes, (htmlToMarkdown P content).
    split; [exact Hy|]. split; [reflexivity|].
    unfold pageMetadataOf. split; [apply lookup_insert_eq|].
    rewrite lookup_insert_ne by discriminate. apply Hsrc.
Qed.

Lemma C8_metadata_keys_witness :
  exists (page : html.Node) (yamlBytes body : string),
    yaml_Marshal Demo.plain
      (pageMetadataOf Demo.plain page "https://example.com/docs/")
    = Ok yamlBytes
    /\ Content (snd (fst (run (worker Demo.plain Demo.job "#main"
                                 "https://example.com/docs/"))))
       = compose yamlBytes body
    /\ pageMetadataOf Demo.plain page "https://example.com/docs/"
         !! "retrieved_at"
       = Some (time_Now_RFC3339 Demo.plain)
    /\ pageMetadataOf Demo.plain page "https://example.com/docs/" !! "source"
       = Some "https://example.com/docs/".
Proof.
  apply (C8_metadata_keys Demo.plain (Demo.pageDoc (Demo.titled "Docs"))
           "https://example.com/docs/")
    with (c := Demo.job) (selector := "#main")
         (up := fst (fst (run (worker Demo.plain Demo.job "#main"
                                 "https://example.com/docs/"))))
         (log := snd (run (worker Demo.plain Demo.job "#main"
                             "https://example.com/docs/"))).
  - vm_compute. reflexivity.
  - vm_compute. reflexivity.
Defined.

(** ** The SSRF guard, the selector miss and the status check *)

Lemma allPublic_veto (ips : list net.IP) (ip : net.IP) :
  In ip ips -> nonPublic ip = true -> allPublic ips = false.
Proof.
  unfold nonPublic. induction ips as [|x ips IH]; simpl; [contradiction|].
  intros [-> | Hin] Hip; [rewrite Hip; reflexivity|].
  destruct (net.IsLoopback x || net.IsLinkLocalMulticast x
            || net.IsLinkLocalUnicast x || net.IsPrivate x); auto.
Qed.

(** The address classes on familiar addresses: loopback, the three
    private IPv4 ranges and their neighbours, link-local, the IPv6
    forms, an IPv4-mapped private address, and two public ones. *)
Lemma nonPublic_samples :
  nonPublic [127; 0; 0; 1]%Z = true
  /\ nonPublic [10; 1; 2; 3]%Z = true
  /\ nonPublic [172; 16; 0; 1]%Z = true
  /\ nonPublic [172; 31; 255; 255]%Z = true
  /\ nonPublic [172; 32; 0; 1]%Z = false
  /\ nonPublic [192; 168; 1; 1]%Z = true
  /\ nonPublic [169; 254; 169; 254]%Z = true
  /\ nonPublic [224; 0; 0; 1]%Z = true
  /\ nonPublic net.IPv6loopback = true
  /\ nonPublic [0xfe; 0x80; 0; 0; 0; 0; 0; 0; 0; 0; 0; 0; 0; 0; 0; 1]%Z = true
  /\ nonPublic [0xfd; 0; 0; 0; 0; 0; 0; 0; 0; 0; 0; 0; 0; 0; 0; 1]%Z = true
  /\ nonPublic [0xff; 0x02; 0; 0; 0; 0; 0; 0; 0; 0; 0; 0; 0; 0; 0; 1]%Z = true
  /\ nonPublic [0; 0; 0; 0; 0; 0; 0; 0; 0; 0; 0xff; 0xff; 10; 0; 0; 1]%Z = true
  /\ nonPublic [93; 184; 216; 34]%Z = false
  /\ nonPublic [0x20; 0x01; 0x48; 0x60; 0; 0; 0; 0; 0; 0; 0; 0; 0; 0; 0x88; 0x88]%Z
     = false.
Proof. repeat split; reflexivity. Qed.

(** C2. When the host of the URL resolves and one of its addresses is
    loopback, link-local or private, the worker counts an error, sends the
    failure [SSRF attack suspected: ...] and performs no request and no
    write: one such address among the resolved ones is enough.  (This is
    the guard of the default build; the [integration] build replaces it
    by one that accepts every URL.) *)
Theorem C2_ssrf_blocked (P : Platform) (c : Converter) (selector u host : string)
    (ips : list net.IP) (ip : net.IP) :
  url_Hostname P u = Ok host ->
  net_LookupIP P host = Ok ips ->
  In ip ips ->
  nonPublic ip = true ->
  run (worker P c selector u)
  = (CountError u,
     {| URL := u; FileName := ""; Content := "";
        Error := "SSRF attack suspected: URL resolves to a non-public IP";
        IsSuccess := false |},
     []).
Proof.
  intros Hhost Hips Hin Hip. unfold run, worker, isPublicURL.
  rewrite Hhost, Hips, (allPublic_veto ips ip Hin Hip). reflexivity.
Qed.

Lemma C2_ssrf_blocked_witness :
  run (worker Demo.plain Demo.job "#main" "https://intranet.example.com/docs/")
  = (CountError "https://intranet.example.com/docs/",
     {| URL := "https://intranet.example.com/docs/"; FileName := "";
        Content := "";
        Error := "SSRF attack suspected: URL resolves to a non-public IP";
        IsSuccess := false |},
     []).
Proof.
  apply (C2_ssrf_blocked Demo.plain Demo.job "#main"
           "https://intranet.example.com/docs/" "intranet.example.com"
           [Demo.publicIP; Demo.privateIP] Demo.privateIP).
  - reflexivity.
  - reflexivity.
  - simpl. right. left. reflexivity.
  - reflexivity.
Defined.

(** C6. When the URL passes the guard, the fetch is answered with status
    200 and a document in which the selector matches nothing,
    [processURL] returns the error [could not find content in <url> using
    selector '<selector>'], and the worker sends that failure after its
    single request: there is no second fetch and no other extraction. *)
Theorem C6_selector_miss (P : Platform) (c : Converter) (selector u : string)
    (resp : Response) (doc : html.Node) :
  isPublicURL P u = Ok true ->
  http_Get P 0 u = Ok resp ->
  StatusCode resp = 200%Z ->
  NewDocumentFromLimitedReader P (Body resp) = Ok doc ->
  length (cascadia_Find P selector doc) = 0%nat ->
  run (processURL P u selector) = (Err (selectorMiss u selector), [EvGet u])
  /\ run (worker P c selector u)
     = (CountError u,
        {| URL := u; FileName := ""; Content := "";
           Error := selectorMiss u selector; IsSuccess := false |},
        [EvGet u]).
Proof.
  intros Hpub Hget Hst Hdoc Hnone.
  assert (Hp : run (processURL P u selector)
               = (Err (selectorMiss u selector), [EvGet u])).
  { unfold run, processURL, bind, Client_Get. simpl.
    rewrite Hget, Hst. simpl. rewrite Hdoc, Hnone. reflexivity. }
  split; [exact Hp|].
  unfold run, worker, bind in *. rewrite Hpub, Hp. reflexivity.
Qed.

Lemma C6_selector_miss_witness :
  run (processURL Demo.plain "https://example.com/docs/" "#nonexistent")
  = (Err (selectorMiss "https://example.com/docs/" "#nonexistent"),
     [EvGet "https://example.com/docs/"])
  /\ run (worker Demo.plain Demo.job "#nonexistent" "https://example.com/docs/")
     = (CountError "https://example.com/docs/",
        {| URL := "https://example.com/docs/"; FileName := ""; Content := "";
           Error := selectorMiss "https://example.com/docs/" "#nonexistent";
           IsSuccess := false |},
        [EvGet "https://example.com/docs/"]).
Proof.
  apply (C6_selector_miss Demo.plain Demo.job "#nonexistent"
           "https://example.com/docs/"
           {| StatusCode := 200;
              Body := Demo.render (Demo.pageDoc (Demo.titled "Docs")) |}
           (Demo.pageDoc (Demo.titled "Docs"))).
  - reflexivity.
  - reflexivity.
  - reflexivity.
  - vm_compute. reflexivity.
  - reflexivity.
Defined.

(** The content fetch does check the status: any answer other than 200
    fails with the URL and the status code in the message, and the worker
    sends that failure. *)
Lemma content_fetch_checks_status (P : Platform) (c : Converter)
    (selector u : string) (resp : Response) :
  isPublicURL P u = Ok true ->
  http_Get P 0 u = Ok resp ->
  StatusCode resp <> 200%Z ->
  run (worker P c selector u)
  = (failure u (badStatus u (StatusCode resp)), [EvGet u]).
Proof.
  intros Hpub Hget Hst.
  assert (Hp : run (processURL P u selector)
               = (Err (badStatus u (StatusCode resp)), [EvGet u])).
  { unfold run, processURL, bind, Client_Get. simpl.
    rewrite Hget. apply Z.eqb_neq in Hst. rewrite Hst. reflexivity. }
  unfold run, worker, bind in *. rewrite Hpub, Hp. reflexivity.
Qed.

(** A worker whose every call succeeds sends a success, whatever the
    status of the answer to its second request. *)
Lemma worker_completes (P : Platform) (c : Converter) (selector u : string)
    (resp0 resp : Response) (doc0 doc : html.Node)
    (content yamlBytes : string) :
  isPublicURL P u = Ok true ->
  http_Get P 0 u = Ok resp0 ->
  StatusCode resp0 = 200%Z ->
  NewDocumentFromLimitedReader P (Body resp0) = Ok doc0 ->
  length (cascadia_Find P selector doc0) <> 0%nat ->
  Html P (cascadia_Find P selector doc0) = Ok content ->
  http_Get P 1 u = Ok resp ->
  NewDocumentFromLimitedReader P (Body resp) = Ok doc ->
  yaml_Marshal P (pageMetadataOf P doc u) = Ok yamlBytes ->
  os_WriteFile P (filepath_Join P (OutputDir c) (filenameOf P doc u))
    (compose yamlBytes (htmlToMarkdown P content)) = None ->
  run (worker P c selector u)
  = (CountSuccess,
     {| URL := u; FileName := filenameOf P doc u;
        Content := compose yamlBytes (htmlToMarkdown P content);
        Error := ""; IsSuccess := true |},
     [ EvGet u; EvGet u;
       EvWriteFile (filepath_Join P (OutputDir c) (filenameOf P doc u))
         (compose yamlBytes (htmlToMarkdown P content)) ]).
Proof.
  intros Hpub Hget0 Hst Hdoc0 Hsome Hhtml Hget Hdoc Hyaml Hwrite.
  assert (Hp : run (processURL P u selector) = (Ok content, [EvGet u])).
  { unfold run, processURL, bind, Client_Get. simpl.
    rewrite Hget0, Hst. simpl. rewrite Hdoc0.
    apply Nat.eqb_neq in Hsome. rewrite Hsome, Hhtml. reflexivity. }
  unfold run, worker, bind in *. rewrite Hpub, Hp.
  unfold Client_Get, WriteFile. simpl.
  rewrite Hget, Hdoc, Hyaml, Hwrite. reflexivity.
Qed.

(** C3, where the code departs from it.  The metadata fetch does not look
    at the status: a worker whose second request is answered with 404 and
    an error page succeeds, and takes the title, hence the file name, from
    the error page. *)
Theorem C3_metadata_fetch_ignores_status :
  http_Get secondFetch404 1 "https://example.com/docs/"
  = Ok {| StatusCode := 404; Body := Demo.render Demo.notFoundDoc |}
  /\ fst (fst (run (worker secondFetch404 Demo.job "#main"
                      "https://example.com/docs/"))) = CountSuccess
  /\ IsSuccess (snd (fst (run (worker secondFetch404 Demo.job "#main"
                                 "https://example.com/docs/")))) = true
  /\ FileName (snd (fst (run (worker secondFetch404 Demo.job "#main"
                                "https://example.com/docs/"))))
     = "404_not_found.md".
Proof. repeat split; vm_compute; reflexivity. Qed.

(** ** [Convert]: the counters and the summary *)

(** The two bounds of Go's [int], as numerals for [lia]. *)
Ltac int_bounds :=
  change (2 ^ 63)%Z with 9223372036854775808%Z in *;
  change (2 ^ 64)%Z with 18446744073709551616%Z in *.

Section Counting.

Lemma tally_app (f : Result -> bool) (a b : list Result) :
  tally f (a ++ b) = (tally f a + tally f b)%nat.
Proof. unfold tally. rewrite List.filter_app, length_app. reflexivity. Qed.

Lemma tally_split (rs : list Result) :
  (tally IsSuccess rs + tally failed rs)%nat = length rs.
Proof.
  unfold tally, failed. induction rs as [|r rs IH]; simpl; [reflexivity|].
  destruct (IsSuccess r); simpl; lia.
Qed.

Lemma sendingResults_app (a b : list Thread) :
  sendingResults (a ++ b) = (sendingResults a ++ sendingResults b)%list.
Proof. unfold sendingResults. apply flat_map_app. Qed.

Lemma finishedCount_app (a b : list Thread) :
  finishedCount (a ++ b) = (finishedCount a + finishedCount b)%nat.
Proof. unfold finishedCount. rewrite List.filter_app, length_app. reflexivity. Qed.

Lemma tally_all_failures (rs : list Result) :
  Forall (fun r => IsSuccess r = false) rs -> tally IsSuccess rs = 0%nat.
Proof.
  unfold tally. induction 1 as [|r rs Hr _ IH]; simpl; [reflexivity|].
  rewrite Hr. exact IH.
Qed.

(** A goroutine holds a result or has returned, not both. *)
Lemma sending_finished_bound (ts : list Thread) :
  (length (sendingResults ts) + finishedCount ts <= length ts)%nat.
Proof.
  unfold sendingResults, finishedCount.
  induction ts as [|t ts IH]; simpl; [lia|].
  destruct t; simpl; rewrite ?length_app; simpl; lia.
Qed.

Lemma tally_produced (f : Result -> bool) (pre post : list Thread) (t : Thread)
    (sh : Shared) (out : list Result) :
  tally f (produced {| threads := pre ++ t :: post; shared := sh;
                       received := out |})
  = (tally f (sendingResults pre) + tally f (sendingResults [t])
     + tally f (sendingResults post) + tally f out)%nat.
Proof.
  unfold produced. cbn [threads received].
  change (t :: post) with ([t] ++ post)%list.
  rewrite !sendingResults_app, !tally_app. lia.
Qed.

(** In a consistent state no more results exist than goroutines. *)
Lemma produced_bound (n : nat) (st : RunState) :
  length (threads st) = n ->
  length (received st) = finishedCount (threads st) ->
  (tally IsSuccess (produced st) + tally failed (produced st) <= n)%nat.
Proof.
  intros Hn Hrecv. rewrite tally_split. unfold produced.
  rewrite length_app, Hrecv, <- Hn. apply sending_finished_bound.
Qed.

Lemma incr_small (k : nat) :
  (Z.of_nat k + 1 < 2 ^ 63)%Z -> incr (Z.of_nat k) = Z.of_nat (k + 1).
Proof.
  intros Hk. unfold incr, wrap64. int_bounds. rewrite Z.mod_small; lia.
Qed.

Lemma run_eta {A : Type} (m : IO (Update * A)) :
  run m = (fst (fst (run m)), snd (fst (run m)), snd (run m)).
Proof. destruct (run m) as [[? ?] ?]. reflexivity. Qed.

End Counting.

Section RunFacts.

Variable c : Converter.
Variable selector : string.
Variable n : nat.
Hypothesis n_fits : (Z.of_nat n < 2 ^ 63)%Z.

Lemma initial_consistent (urls : list string) :
  length urls = n -> consistent n (initial urls).
Proof.
  intros Hn. unfold consistent, initial, produced, finishedCount. simpl.
  rewrite length_map.
  assert (Hs : sendingResults (List.map Running urls) = []).
  { clear. unfold sendingResults. induction urls as [|u us IH]; simpl; auto. }
  assert (Hf : List.filter isFinished (List.map Running urls) = []).
  { clear. induction urls as [|u us IH]; simpl; auto. }
  rewrite Hs, Hf. simpl. auto.
Qed.

(** Every step keeps the state consistent. *)
Lemma step_consistent (st st' : RunState) :
  step c selector st st' -> consistent n st -> consistent n st'.
Proof.
  intros Hstep (Hlen & Hsucc & Herr & Hfail & Hrecv).
  destruct Hstep as [P pre post u sh out o | pre post r sh out]; simpl in *.
  - assert (Hlen' : length (pre ++ Sending (snd o) :: post) = n).
    { rewrite <- Hlen, !length_app. reflexivity. }
    assert (Hrecv' : length out
                     = finishedCount (pre ++ Sending (snd o) :: post)).
    { rewrite Hrecv, !finishedCount_app. reflexivity. }
    pose proof (produced_bound n
                  {| threads := pre ++ Sending (snd o) :: post;
                     shared := applyUpdate (fst o) sh; received := out |}
                  Hlen' Hrecv') as Hbound.
    rewrite !tally_produced in *.
    unfold consistent. simpl threads; simpl shared; simpl received.
    rewrite !tally_produced.
    change (sendingResults [Running u]) with (@nil Result) in *.
    change (sendingResults [Sending (snd o)]) with [snd o] in *.
    pose proof (worker_update_matches P c selector u (fst o) (snd o)
                  (snd (run (worker P c selector u))) (run_eta _))
      as [[Hup Hr] | [Hup Hr]]; rewrite Hup;
      unfold tally in *; simpl in *; unfold failed in *;
      rewrite Hr in *; simpl in *.
    + repeat split; auto; try lia.
      rewrite Hsucc, incr_small by lia. f_equal. lia.
    + repeat split; auto; try lia.
      * rewrite Herr, incr_small by lia. f_equal. lia.
      * rewrite length_app, Hfail. simpl. lia.
  - unfold consistent. simpl threads; simpl shared; simpl received.
    rewrite !tally_produced in *.
    change (sendingResults [Finished]) with (@nil Result).
    change (sendingResults [Sending r]) with [r] in *.
    rewrite !tally_app.
    repeat split.
    + rewrite <- Hlen, !length_app. reflexivity.
    + rewrite Hsucc. f_equal. unfold tally. simpl. lia.
    + rewrite Herr. f_equal. unfold tally. simpl. lia.
    + rewrite Hfail. unfold tally. simpl. lia.
    + rewrite length_app, Hrecv, !finishedCount_app. simpl.
      unfold finishedCount. simpl. lia.
Qed.

Lemma run_consistent (st st' : RunState) :
  rtc (step c selector) st st' -> consistent n st -> consistent n st'.
Proof.
  induction 1 as [|x y z Hxy _ IH]; [auto|].
  intros Hx. apply IH. exact (step_consistent x y Hxy Hx).
Qed.

(** When every goroutine has returned, every result has been received. *)
Lemma finished_all_received (ts : list Thread) :
  forallb isFinished ts = true ->
  sendingResults ts = [] /\ finishedCount ts = length ts.
Proof.
  unfold sendingResults, finishedCount.
  induction ts as [|t ts IH]; simpl; [auto|].
  rewrite andb_true_iff. intros [Ht Hts]. destruct (IH Hts) as [IH1 IH2].
  destruct t; try discriminate. simpl. rewrite IH1, IH2. auto.
Qed.

End RunFacts.

(** The one-after-the-other schedule is a run. *)
Lemma sequential_steps (P : Platform) (c : Converter) (selector : string)
    (urls : list string) :
  forall (pre : list Thread) (sh : Shared) (out : list Result),
    rtc (step c selector)
      {| threads := pre ++ List.map Running urls; shared := sh;
         received := out |}
      {| threads := pre ++ List.map (fun _ => Finished) urls;
         shared := fst (sequential P c selector urls sh out);
         received := snd (sequential P c selector urls sh out) |}.
Proof.
  induction urls as [|u rest IH]; intros pre sh out; simpl; [apply rtc_refl|].
  eapply rtc_l; [apply (step_work c selector P)|].
  eapply rtc_l; [apply step_send|].
  change (Finished :: List.map Running rest)
    with ([Finished] ++ List.map Running rest)%list.
  change (Finished :: List.map (fun _ => Finished) rest)
    with ([Finished] ++ List.map (fun _ : string => Finished) rest)%list.
  rewrite !app_assoc. apply IH.
Qed.

Lemma sequential_Convert (P : Platform) (c : Converter) (urls : list string)
    (selector elapsed : string) :
  Convert c urls selector
    (fst (ConvertSequential P c urls selector elapsed))
    (snd (ConvertSequential P c urls selector elapsed)).
Proof.
  unfold Convert, ConvertSequential.
  pose proof (sequential_steps P c selector urls []
                {| successCount := 0; errorCount := 0; failedURLs := [] |} [])
    as Hrun.
  destruct (sequential P c selector urls
              {| successCount := 0; errorCount := 0; failedURLs := [] |} [])
    as [sh out] eqn:Hseq.
  eexists _, elapsed. split; [exact Hrun|]. simpl.
  repeat split. clear. induction urls; simpl; auto.
Qed.

(** C1. For every list of URLs (a Go slice, hence shorter than [2^63])
    and every selector, every run of [Convert] whose result stream is
    drained ends with a summary in which [Successful + Failed] is
    [TotalURLs], also under the wrap-around of Go's addition, the length
    of [FailedURLs] is [Failed], and [TotalURLs] is the number of URLs;
    one result was received per URL, and when all of them are failures
    [Successful] is 0 and [Failed] is [TotalURLs]. *)
Theorem C1_summary_consistent (c : Converter) (urls : list string)
    (selector : string) (results : list Result) (summary : Summary) :
  (Z.of_nat (length urls) < 2 ^ 63)%Z ->
  Convert c urls selector results summary ->
  (Successful summary + Failed summary = TotalURLs summary)%Z
  /\ wrap64 (Successful summary + Failed summary) = TotalURLs summary
  /\ Z.of_nat (length (FailedURLs summary)) = Failed summary
  /\ TotalURLs summary = Z.of_nat (length urls)
  /\ length results = length urls
  /\ (Forall (fun r => IsSuccess r = false) results ->
      Successful summary = 0%Z /\ Failed summary = TotalURLs summary).
Proof.
  intros Hfits (st & elapsed & Hrun & Hdone & -> & ->).
  pose proof (run_consistent c selector (length urls) Hfits _ _ Hrun
                (initial_consistent (length urls) urls eq_refl))
    as (Hlen & Hsucc & Herr & Hfail & Hrecv).
  destruct (finished_all_received _ Hdone) as [Hnone Hall].
  unfold produced in *. rewrite Hnone in *. simpl in *.
  rewrite Hall, Hlen in Hrecv.
  pose proof (tally_split (received st)) as Hsplit.
  assert (Hsum : (successCount (shared st) + errorCount (shared st)
                  = Z.of_nat (length urls))%Z) by lia.
  split; [exact Hsum|]. split.
  { rewrite Hsum. unfold wrap64. int_bounds. rewrite Z.mod_small; lia. }
  split; [lia|]. split; [reflexivity|]. split; [exact Hrecv|].
  intros Hfailures. pose proof (tally_all_failures _ Hfailures). lia.
Qed.

Lemma C1_summary_consistent_witness :
  let urls := [ "https://example.com/docs/";
                "https://intranet.example.com/x"; "bad" ] in
  let run := ConvertSequential Demo.plain Demo.job urls "#main" "1.2s" in
  (Successful (snd run) + Failed (snd run) = TotalURLs (snd run))%Z
  /\ wrap64 (Successful (snd run) + Failed (snd run)) = TotalURLs (snd run)
  /\ Z.of_nat (length (FailedURLs (snd run))) = Failed (snd run)
  /\ TotalURLs (snd run) = Z.of_nat (length urls)
  /\ length (fst run) = length urls
  /\ (Forall (fun r => IsSuccess r = false) (fst run) ->
      Successful (snd run) = 0%Z /\ Failed (snd run) = TotalURLs (snd run)).
Proof.
  intros urls run.
  apply (C1_summary_consistent Demo.job urls "#main" (fst run) (snd run)).
  - reflexivity.
  - apply sequential_Convert.
Defined.

(** ** Every run comes to its end *)

Lemma remaining_app (a b : list Thread) :
  remaining (a ++ b) = (remaining a + remaining b)%nat.
Proof. unfold remaining. rewrite List.map_app, list_sum_app. reflexivity. Qed.

(** Each step uses up some of the remaining work, so a run over [n] URLs
    has at most [2 * n] steps. *)
Lemma step_decreases (c : Converter) (selector : string) (st st' : RunState) :
  step c selector st st' ->
  (remaining (threads st') < remaining (threads st))%nat.
Proof.
  intros [P pre post u sh out o | pre post r sh out]; simpl;
    rewrite !remaining_app; unfold remaining; simpl; lia.
Qed.

Lemma unfinished_thread (ts : list Thread) :
  forallb isFinished ts = false ->
  exists pre t post, ts = (pre ++ t :: post)%list /\ isFinished t = false.
Proof.
  induction ts as [|t ts IH]; simpl; [discriminate|].
  destruct (isFinished t) eqn:Ht; simpl.
  - intros H. destruct (IH H) as (pre & x & post & -> & Hx).
    exists (t :: pre), x, post. auto.
  - intros _. exists [], t, ts. auto.
Qed.

(** As long as some goroutine has not returned, some step is possible:
    with a consumer that drains the stream, a run does not get stuck. *)
Lemma step_progress (P : Platform) (c : Converter) (selector : string)
    (st : RunState) :
  allFinished st = false -> exists st', step c selector st st'.
Proof.
  destruct st as [ts sh out]. unfold allFinished. simpl. intros H.
  destruct (unfinished_thread ts H) as (pre & t & post & -> & Ht).
  destruct t as [u | r |]; [| |discriminate].
  - eexists. apply (step_work c selector P).
  - eexists. apply step_send.
Qed.

(** * Further properties of the code *)

(** ** [SanitizeFilename] on ASCII input *)

Section SanitizeAscii.

Import Bytes.

Lemma all_app (f : ascii -> bool) (a b : string) :
  all f (a ++ b) = all f a && all f b.
Proof.
  induction a as [|x a IH]; [reflexivity|].
  rewrite append_cons. simpl. rewrite IH, andb_assoc. reflexivity.
Qed.

Lemma map_app (f : ascii -> ascii) (a b : string) :
  map f (a ++ b) = map f a ++ map f b.
Proof.
  induction a as [|x a IH]; [reflexivity|].
  rewrite append_cons. simpl. rewrite IH, append_cons. reflexivity.
Qed.

Lemma filter_app (f : ascii -> bool) (a b : string) :
  filter f (a ++ b) = filter f a ++ filter f b.
Proof.
  induction a as [|x a IH]; [reflexivity|].
  rewrite append_cons. simpl. rewrite IH.
  destruct (f x); [rewrite append_cons|]; reflexivity.
Qed.

Lemma filter_length (f : ascii -> bool) (s : string) :
  (String.length (filter f s) <= String.length s)%nat.
Proof.
  induction s as [|x s IH]; simpl; [lia|]. destruct (f x); simpl; lia.
Qed.

Lemma map_length (f : ascii -> ascii) (s : string) :
  String.length (map f s) = String.length s.
Proof. induction s as [|x s IH]; simpl; [reflexivity | rewrite IH; reflexivity]. Qed.

(** On a string without capitals the byte-wise lowering changes nothing,
    so both branches of the ASCII path of [ToLower] are the same map. *)
Lemma ToLower_ascii (mapLower : string -> string) (s : string) :
  strings.isASCII s = true ->
  strings.ToLower mapLower s = map strings.lowerByte s.
Proof.
  intros Hascii. unfold strings.ToLower. rewrite Hascii.
  destruct (strings.hasUpper s) eqn:Hup; simpl; [reflexivity|].
  symmetry. apply map_id_on. clear Hascii.
  unfold strings.hasUpper in Hup.
  induction s as [|x s IH]; simpl in *; [reflexivity|].
  apply orb_false_iff in Hup as [Hx Hs].
  rewrite (IH Hs), andb_true_r. apply bool_decide_eq_true.
  unfold strings.lowerByte. rewrite Hx. reflexivity.
Qed.

Lemma sanitize_ascii (mapLower : string -> string) (s : string) :
  strings.isASCII s = true ->
  SanitizeFilename mapLower s
  = filter regexp.wordByte
      (map (fun c => if isb 32 c then ascii_of_N 95 else c)
         (map strings.lowerByte s)).
Proof.
  intros Hascii. unfold SanitizeFilename.
  rewrite (ToLower_ascii mapLower s Hascii). reflexivity.
Qed.

End SanitizeAscii.

(** X1. On ASCII input [SanitizeFilename] works byte by byte: the name of
    a concatenation is the concatenation of the names, and a name is
    never longer than the string it comes from. *)
Theorem X1_sanitize_ascii_bytewise (mapLower : string -> string) (a b : string) :
  strings.isASCII a = true ->
  strings.isASCII b = true ->
  SanitizeFilename mapLower (a ++ b)
  = SanitizeFilename mapLower a ++ SanitizeFilename mapLower b
  /\ (String.length (SanitizeFilename mapLower a) <= String.length a)%nat.
Proof.
  intros Ha Hb.
  assert (Hab : strings.isASCII (a ++ b) = true).
  { unfold strings.isASCII in *. rewrite all_app, Ha, Hb. reflexivity. }
  rewrite !sanitize_ascii by assumption.
  rewrite !map_app, filter_app. split; [reflexivity|].
  eapply Nat.le_trans; [apply filter_length|].
  rewrite !map_length. lia.
Qed.

Lemma X1_sanitize_ascii_bytewise_witness :
  SanitizeFilename (fun s => s) ("Release Notes " ++ "(v2.1)!")
  = SanitizeFilename (fun s => s) "Release Notes "
    ++ SanitizeFilename (fun s => s) "(v2.1)!"
  /\ (String.length (SanitizeFilename (fun s => s) "Release Notes ")
      <= String.length "Release Notes ")%nat.
Proof.
  apply (X1_sanitize_ascii_bytewise (fun s => s) "Release Notes " "(v2.1)!");
    reflexivity.
Defined.

(** ** What a worker does, whatever happens *)

Lemma literal_app_nonempty (x : ascii) (l t : string) : String x l ++ t <> "".
Proof. rewrite append_cons. discriminate. Qed.

Section WorkerShape.

Variable P : Platform.
Variable c : Converter.
Variables selector u : string.

(** An error of [processURL] is never the empty message. *)
Lemma processURL_error_nonempty (log log' : list Event) (e : error) :
  processURL P u selector log = (Err e, log') -> e <> "".
Proof.
  unfold processURL, bind, Client_Get, ret. intros H.
  repeat case_match; simplify_eq/=; apply literal_app_nonempty.
Qed.

(** The name of the file is a string of [[a-z0-9_]] followed by [.md]. *)
Lemma filenameOf_safe (doc : html.Node) :
  exists name : string,
    filenameOf P doc u = name ++ ".md"
    /\ Bytes.all regexp.wordByte name = true.
Proof.
  exists (getSanitizedTitle P doc u). split; [reflexivity|].
  unfold getSanitizedTitle, SanitizeFilename, regexp.ReplaceAll_nonword_empty.
  apply all_filter.
Qed.

End WorkerShape.

(** X2. The [Result] of a worker always carries its URL.  A success has
    an empty error and a file name made of characters of [[a-z0-9_]]
    followed by [.md]; a failure has a non-empty error message, no file
    name and no content. *)
Theorem X2_result_well_formed (P : Platform) (c : Converter)
    (selector u : string) :
  let r := snd (fst (run (worker P c selector u))) in
  URL r = u
  /\ if IsSuccess r
     then Error r = ""
          /\ exists name : string,
               FileName r = name ++ ".md"
               /\ Bytes.all regexp.wordByte name = true
     else Error r <> "" /\ FileName r = "" /\ Content r = "".
Proof.
  unfold run, worker, bind.
  destruct (isPublicURL P u) as [[|]|e];
    [| simpl; repeat split; discriminate
     | simpl; repeat split; apply literal_app_nonempty].
  destruct (processURL P u selector []) as [r0 l] eqn:Hp.
  pose proof (processURL_error_nonempty P selector u [] l) as Hne.
  rewrite Hp in Hne.
  unfold Client_Get, WriteFile, ret, failure.
  repeat case_match; simplify_eq/=; repeat split;
    try apply literal_app_nonempty; try discriminate; eauto.
  apply filenameOf_safe.
Qed.

(** The effects of a worker are
    nothing, one request, two requests, or two requests and one write
    into the output directory of the converter, under a name made of
    characters of [[a-z0-9_]] followed by [.md]. *)
Lemma worker_log_shape (P : Platform) (c : Converter) (selector u : string) :
  let log := snd (run (worker P c selector u)) in
  log = []
  \/ log = [EvGet u]
  \/ log = [EvGet u; EvGet u]
  \/ exists name content : string,
       Bytes.all regexp.wordByte name = true
       /\ log = [ EvGet u; EvGet u;
                  EvWriteFile (filepath_Join P (OutputDir c) (name ++ ".md"))
                    content ].
Proof.
  unfold run, worker, bind.
  destruct (isPublicURL P u) as [[|]|e]; [| left; reflexivity ..].
  pose proof (processURL_log P selector u []) as Hlog.
  destruct (processURL P u selector []) as [r0 l]. simpl in Hlog. subst l.
  unfold Client_Get, WriteFile, ret, failure.
  repeat case_match; simplify_eq/=; auto;
    do 3 right;
    match goal with
    | |- context [filenameOf P ?d u] =>
        destruct (filenameOf_safe P u d) as (name & -> & Hname)
    end; eauto.
Qed.


(** ** The guard and the failures of a worker *)

Section GuardFacts.

Variable P : Platform.

(** The loop of [isPublicURL] accepts exactly the lists without a
    rejected address; the empty list is one of them. *)
Lemma allPublic_spec (ips : list net.IP) :
  allPublic ips = true <-> Forall (fun ip => nonPublic ip = false) ips.
Proof.
  unfold nonPublic. induction ips as [|ip ips IH]; simpl.
  - split; [constructor | reflexivity].
  - destruct (net.IsLoopback ip || net.IsLinkLocalMulticast ip
              || net.IsLinkLocalUnicast ip || net.IsPrivate ip) eqn:E.
    + split; [discriminate|]. intros H. inversion H; subst. congruence.
    + rewrite IH. split; [intros H; constructor; auto|].
      intros H. inversion H; subst. assumption.
Qed.

Lemma isPublicURL_true (u : string) :
  isPublicURL P u = Ok true
  <-> exists (host : string) (ips : list net.IP),
        url_Hostname P u = Ok host
        /\ net_LookupIP P host = Ok ips
        /\ Forall (fun ip => nonPublic ip = false) ips.
Proof.
  unfold isPublicURL. split.
  - destruct (url_Hostname P u) as [host|e]; [|discriminate].
    destruct (net_LookupIP P host) as [ips|e] eqn:Hips; [|discriminate].
    intros H. exists host, ips. split; [reflexivity|]. split; [exact Hips|].
    apply allPublic_spec. congruence.
  - intros (host & ips & -> & -> & Hall).
    apply allPublic_spec in Hall. rewrite Hall. reflexivity.
Qed.

Lemma isPublicURL_error (u : string) (e : error) :
  isPublicURL P u = Err e
  <-> url_Hostname P u = Err e
      \/ exists host, url_Hostname P u = Ok host /\ net_LookupIP P host = Err e.
Proof.
  unfold isPublicURL. split.
  - destruct (url_Hostname P u) as [host|e']; [|intros H; left; congruence].
    destruct (net_LookupIP P host) as [ips|e'] eqn:Hips; [discriminate|].
    intros H. right. exists host. split; congruence.
  - intros [-> | (host & -> & ->)]; reflexivity.
Qed.

Variable c : Converter.
Variables selector u : string.

(** Past the guard, the first thing a worker does is its request. *)
Lemma worker_after_guard :
  isPublicURL P u = Ok true ->
  exists rest, snd (run (worker P c selector u)) = EvGet u :: rest.
Proof.
  intros Hpub. unfold run, worker, bind. rewrite Hpub.
  pose proof (processURL_log P selector u []) as Hlog.
  destruct (processURL P u selector []) as [r0 l]. simpl in Hlog. subst l.
  unfold Client_Get, WriteFile, ret.
  repeat case_match; simplify_eq/=; eauto.
Qed.

(** The worker hands on an error of [processURL] as it is. *)
Lemma worker_relays (e : error) :
  isPublicURL P u = Ok true ->
  fst (run (processURL P u selector)) = Err e ->
  run (worker P c selector u) = (failure u e, [EvGet u]).
Proof.
  intros Hpub Hp. unfold run, worker, bind in *. rewrite Hpub.
  pose proof (processURL_log P selector u []) as Hlog.
  destruct (processURL P u selector []) as [r0 l]. simpl in *. subst.
  reflexivity.
Qed.

End GuardFacts.

(** X4. When the URL cannot be parsed, or its host cannot be resolved,
    the worker counts a failure with the message [URL validation failed:]
    followed by the error, and neither sends a request nor writes a
    file. *)
Theorem X4_validation_failure (P : Platform) (c : Converter)
    (selector u : string) (e : error) :
  url_Hostname P u = Err e
  \/ (exists host, url_Hostname P u = Ok host /\ net_LookupIP P host = Err e) ->
  run (worker P c selector u)
  = (CountError u,
     {| URL := u; FileName := ""; Content := "";
        Error := "URL validation failed: " ++ e; IsSuccess := false |},
     []).
Proof.
  intros H. apply isPublicURL_error in H.
  unfold run, worker. rewrite H. reflexivity.
Qed.

Lemma X4_validation_failure_witness :
  run (worker Demo.plain Demo.job "#main" "https://unknown.example.org/a")
  = (CountError "https://unknown.example.org/a",
     {| URL := "https://unknown.example.org/a"; FileName := ""; Content := "";
        Error := "URL validation failed: "
                 ++ "lookup unknown.example.org: no such host";
        IsSuccess := false |},
     []).
Proof.
  apply (X4_validation_failure Demo.plain Demo.job "#main"
           "https://unknown.example.org/a").
  right. exists "unknown.example.org". split; reflexivity.
Defined.

(** X5. A worker sends a request exactly when the guard lets the URL
    pass: when the URL parses, its host resolves and none of the resolved
    addresses is loopback, link-local or private.  A host that resolves
    to no address at all passes. *)
Theorem X5_request_iff_public (P : Platform) (c : Converter)
    (selector u : string) :
  (exists rest, snd (run (worker P c selector u)) = EvGet u :: rest)
  <-> exists (host : string) (ips : list net.IP),
        url_Hostname P u = Ok host
        /\ net_LookupIP P host = Ok ips
        /\ Forall (fun ip => nonPublic ip = false) ips.
Proof.
  rewrite <- isPublicURL_true. split.
  - intros [rest Hlog]. unfold run, worker in Hlog.
    destruct (isPublicURL P u) as [[|]|e]; [reflexivity | discriminate ..].
  - apply worker_after_guard.
Qed.

(** X6. When [processURL] fails, for whatever reason, the worker sends
    its error unchanged as the failure of the URL, after the single
    request of [processURL]: there is no metadata fetch and no write. *)
Theorem X6_content_failure_relayed (P : Platform) (c : Converter)
    (selector u : string) (e : error) :
  isPublicURL P u = Ok true ->
  fst (run (processURL P u selector)) = Err e ->
  run (worker P c selector u)
  = (CountError u,
     {| URL := u; FileName := ""; Content := ""; Error := e;
        IsSuccess := false |},
     [EvGet u]).
Proof. apply worker_relays. Qed.

Lemma X6_content_failure_relayed_witness :
  run (worker Faults.firstFetchFails Demo.job "#main" Faults.url)
  = (CountError Faults.url,
     {| URL := Faults.url; FileName := ""; Content := "";
        Error := "failed to fetch URL https://example.com/docs/: "
                 ++ "connection refused";
        IsSuccess := false |},
     [EvGet Faults.url]).
Proof.
  apply (X6_content_failure_relayed Faults.firstFetchFails Demo.job "#main"
           Faults.url); reflexivity.
Defined.

(** X7. When the content was extracted and the second request, the one
    for the metadata, fails or its body cannot be read, the URL fails
    with the message of that stage after two requests, and no file is
    written. *)
Theorem X7_metadata_fetch_failure (P : Platform) (c : Converter)
    (selector u content : string) (e : error) :
  isPublicURL P u = Ok true ->
  fst (run (processURL P u selector)) = Ok content ->
  (http_Get P 1 u = Err e ->
   run (worker P c selector u)
   = (failure u ("failed to fetch URL for metadata: " ++ e),
      [EvGet u; EvGet u]))
  /\ (forall resp : Response,
        http_Get P 1 u = Ok resp ->
        NewDocumentFromLimitedReader P (Body resp) = Err e ->
        run (worker P c selector u)
        = (failure u ("failed to parse HTML for metadata: " ++ e),
           [EvGet u; EvGet u])).
Proof.
  intros Hpub Hp.
  pose proof (processURL_log P selector u []) as Hlog.
  unfold run in *.
  destruct (processURL P u selector []) as [r0 l] eqn:Hrun.
  simpl in Hp, Hlog. subst.
  split.
  - intros Hget. unfold worker, bind. rewrite Hpub, Hrun.
    unfold Client_Get. simpl. rewrite Hget. reflexivity.
  - intros resp Hget Hdoc. unfold worker, bind. rewrite Hpub, Hrun.
    unfold Client_Get. simpl. rewrite Hget, Hdoc. reflexivity.
Qed.

Lemma X7_metadata_fetch_failure_witness :
  run (worker Faults.secondFetchFails Demo.job "#main" Faults.url)
  = (failure Faults.url
       ("failed to fetch URL for metadata: " ++ "context deadline exceeded"),
     [EvGet Faults.url; EvGet Faults.url]).
Proof.
  apply (X7_metadata_fetch_failure Faults.secondFetchFails Demo.job "#main"
           Faults.url Demo.fragment "context deadline exceeded");
    reflexivity.
Defined.

(** X8. When everything up to the write succeeds and [os.WriteFile]
    fails, the URL is counted as failed although both requests were
    answered: the result carries the write error, no file name and no
    content, and the write was attempted last. *)
Theorem X8_write_failure (P : Platform) (c : Converter)
    (selector u content yamlBytes : string) (resp : Response)
    (doc : html.Node) (e : error) :
  isPublicURL P u = Ok true ->
  fst (run (processURL P u selector)) = Ok content ->
  http_Get P 1 u = Ok resp ->
  NewDocumentFromLimitedReader P (Body resp) = Ok doc ->
  yaml_Marshal P (pageMetadataOf P doc u) = Ok yamlBytes ->
  os_WriteFile P (filepath_Join P (OutputDir c) (filenameOf P doc u))
    (compose yamlBytes (htmlToMarkdown P content)) = Some e ->
  run (worker P c selector u)
  = (CountError u,
     {| URL := u; FileName := ""; Content := "";
        Error := "failed to write file: " ++ e; IsSuccess := false |},
     [ EvGet u; EvGet u;
       EvWriteFile (filepath_Join P (OutputDir c) (filenameOf P doc u))
         (compose yamlBytes (htmlToMarkdown P content)) ]).
Proof.
  intros Hpub Hp Hget Hdoc Hyaml Hwrite.
  pose proof (processURL_log P selector u []) as Hlog.
  unfold run in *.
  destruct (processURL P u selector []) as [r0 l] eqn:Hrun.
  simpl in Hp, Hlog. subst.
  unfold worker, bind. rewrite Hpub, Hrun.
  unfold Client_Get, WriteFile. simpl.
  rewrite Hget, Hdoc, Hyaml, Hwrite. reflexivity.
Qed.

Lemma X8_write_failure_witness :
  fst (run (worker Faults.writeFails Demo.job "#main" Faults.url))
  = (CountError Faults.url,
     {| URL := Faults.url; FileName := ""; Content := "";
        Error := "failed to write file: " ++ "permission denied";
        IsSuccess := false |})
  /\ length (snd (run (worker Faults.writeFails Demo.job "#main" Faults.url)))
     = 3%nat.
Proof.
  rewrite (X8_write_failure Faults.writeFails Demo.job "#main" Faults.url
             Demo.fragment
             (String.concat ""
                [ "source: https://example.com/docs/"; Bytes.LF;
                  "retrieved_at: 2024-01-01T00:00:00Z"; Bytes.LF;
                  "title: Docs"; Bytes.LF;
                  "description: A page"; Bytes.LF ])
             {| StatusCode := 200; Body := Demo.render Faults.page |}
             Faults.page "permission denied");
    try (vm_compute; reflexivity).
  split; reflexivity.
Defined.

(** ** What a success presupposes, and a failure that passes for one *)

Section SuccessFacts.

Variable P : Platform.

Lemma limited_reader_ok (body : string) (doc : html.Node) :
  NewDocumentFromLimitedReader P body = Ok doc ->
  (Bytes.len body <= maxBodySize)%N /\ html_Parse P body = Ok doc.
Proof.
  unfold NewDocumentFromLimitedReader.
  destruct (maxBodySize <? Bytes.len body)%N eqn:E; [discriminate|].
  apply N.ltb_ge in E. auto.
Qed.

Lemma processURL_success (u selector content : string) (log log' : list Event) :
  processURL P u selector log = (Ok content, log') ->
  exists (resp : Response) (doc : html.Node),
    http_Get P (length (List.filter isGet log)) u = Ok resp
    /\ StatusCode resp = 200%Z
    /\ NewDocumentFromLimitedReader P (Body resp) = Ok doc
    /\ length (cascadia_Find P selector doc) <> 0%nat
    /\ Html P (cascadia_Find P selector doc) = Ok content.
Proof.
  unfold processURL, bind, Client_Get, ret. intros H.
  repeat case_match; simplify_eq/=.
  eexists _, _. repeat split; eauto.
  - apply Z.eqb_eq. apply negb_false_iff. assumption.
  - apply Nat.eqb_neq. assumption.
Qed.

End SuccessFacts.

(** X9. A successful worker got status 200 and a body of at most 5 MiB
    on its first request, found at least one element for the selector in
    it, and got a body of at most 5 MiB on its second request. *)
Theorem X9_success_presupposes (P : Platform) (c : Converter)
    (selector u : string) (up : Update) (r : Result) (log : list Event) :
  run (worker P c selector u) = (up, r, log) ->
  IsSuccess r = true ->
  exists (resp0 resp1 : Response) (doc0 : html.Node),
    http_Get P 0 u = Ok resp0
    /\ StatusCode resp0 = 200%Z
    /\ (Bytes.len (Body resp0) <= maxBodySize)%N
    /\ html_Parse P (Body resp0) = Ok doc0
    /\ length (cascadia_Find P selector doc0) <> 0%nat
    /\ http_Get P 1 u = Ok resp1
    /\ (Bytes.len (Body resp1) <= maxBodySize)%N.
Proof.
  intros Hrun Hok.
  destruct (worker_success P c selector u up r log Hrun Hok)
    as (content & resp1 & doc1 & yamlBytes & _ & Hp & Hget1 & Hdoc1 & _).
  destruct (processURL_success P u selector content [] _ Hp)
    as (resp0 & doc0 & Hget0 & Hst & Hdoc0 & Hsome & _).
  apply limited_reader_ok in Hdoc0 as [Hlen0 Hparse0].
  apply limited_reader_ok in Hdoc1 as [Hlen1 _].
  exists resp0, resp1, doc0. repeat split; assumption.
Qed.

Lemma X9_success_presupposes_witness :
  exists (resp0 resp1 : Response) (doc0 : html.Node),
    http_Get Demo.plain 0 Faults.url = Ok resp0
    /\ StatusCode resp0 = 200%Z
    /\ (Bytes.len (Body resp0) <= maxBodySize)%N
    /\ html_Parse Demo.plain (Body resp0) = Ok doc0
    /\ length (cascadia_Find Demo.plain "#main" doc0) <> 0%nat
    /\ http_Get Demo.plain 1 Faults.url = Ok resp1
    /\ (Bytes.len (Body resp1) <= maxBodySize)%N.
Proof.
  apply (X9_success_presupposes Demo.plain Demo.job "#main" Faults.url
           (fst (fst (run (worker Demo.plain Demo.job "#main" Faults.url))))
           (snd (fst (run (worker Demo.plain Demo.job "#main" Faults.url))))
           (snd (run (worker Demo.plain Demo.job "#main" Faults.url))));
    vm_compute; reflexivity.
Defined.



(** ** The cleanup of [htmlToMarkdown] *)

Section CleanupFacts.

Import Bytes.

(** A scan that starts with fewer newlines behind it finds no more. *)
Lemma tripleFrom_mono (s : string) (k k' : nat) :
  (k <= k')%nat -> tripleFrom k' s = false -> tripleFrom k s = false.
Proof.
  revert k k'. induction s as [|x s IH]; intros k k' Hk; simpl; [reflexivity|].
  destruct (isb 10 x); [|apply IH; lia].
  destruct k' as [|[|k']]; [| |discriminate];
    destruct k as [|[|k]]; try lia; apply IH; lia.
Qed.

Lemma tripleFrom_suffix (p s : string) (k : nat) :
  tripleFrom k (p ++ s) = false -> tripleFrom 0 s = false.
Proof.
  revert k. induction p as [|x p IH]; intros k.
  - apply tripleFrom_mono. lia.
  - rewrite append_cons. simpl.
    destruct (isb 10 x); [|apply IH].
    destruct k as [|[|k]]; [apply IH | apply IH | discriminate].
Qed.

Lemma tripleFrom_prefix (s q : string) (k : nat) :
  tripleFrom k (s ++ q) = false -> tripleFrom k s = false.
Proof.
  revert k. induction s as [|x s IH]; intros k; [reflexivity|].
  rewrite append_cons. simpl.
  destruct (isb 10 x); [|apply IH].
  destruct k as [|[|k]]; [apply IH | apply IH | discriminate].
Qed.

(** The replacement leaves a string without a triple newline alone. *)
Lemma collapse_fixed (s : string) (k : nat) :
  tripleFrom k s = false -> regexp.collapseFrom k s = s.
Proof.
  revert k. induction s as [|x s IH]; intros k; simpl; [reflexivity|].
  destruct (isb 10 x).
  - destruct k as [|[|k]]; [| |discriminate];
      intros H; rewrite (IH _ H); reflexivity.
  - intros H. rewrite (IH _ H). reflexivity.
Qed.

(** The scan leaves a list without a space ahead alone. *)
Lemma dropSpaces_fixed (s1 : ascii -> bool) (s2 : ascii -> ascii -> bool)
    (s3 : ascii -> ascii -> ascii -> bool) (l : list ascii) :
  strings.spaceAhead s1 s2 s3 l = false -> strings.dropSpaces s1 s2 s3 l = l.
Proof.
  destruct l as [|x [|y [|z r]]]; simpl; try reflexivity.
  - destruct (s1 x); [discriminate | reflexivity].
  - destruct (s1 x), (s2 x y); try discriminate; reflexivity.
  - destruct (s1 x), (s2 x y), (s3 x y z); try discriminate; reflexivity.
Qed.

Lemma TrimSpace_fixed (s : string) :
  strings.trimmed s -> strings.TrimSpace s = s.
Proof.
  unfold strings.trimmed, strings.startsWithSpace, strings.endsWithSpace.
  intros [Hstart Hend].
  unfold strings.TrimSpace, strings.trimLeft, strings.trimRight.
  rewrite (dropSpaces_fixed _ _ _ _ Hstart), (dropSpaces_fixed _ _ _ _ Hend).
  rewrite rev_involutive. apply string_of_list_ascii_of_string.
Qed.

End CleanupFacts.

(** X11. The Markdown [htmlToMarkdown] returns is a fixed point of its own
    cleanup: replacing the runs of newlines and trimming it once more
    changes nothing. *)
Theorem X11_cleanup_idempotent (P : Platform) (htmlContent : string) :
  strings.TrimSpace (regexp.ReplaceAll_newlines (htmlToMarkdown P htmlContent))
  = htmlToMarkdown P htmlContent.
Proof.
  assert (Hfix : forall x : string,
             strings.TrimSpace
               (regexp.ReplaceAll_newlines
                  (strings.TrimSpace (regexp.ReplaceAll_newlines x)))
             = strings.TrimSpace (regexp.ReplaceAll_newlines x)).
  { intros x.
    destruct (TrimSpace_piece (regexp.ReplaceAll_newlines x)) as (p & q & Hpq).
    pose proof (collapse_no_triple x 0 ltac:(lia)) as Hfree.
    fold (regexp.ReplaceAll_newlines x) in Hfree. rewrite Hpq in Hfree.
    apply tripleFrom_suffix, tripleFrom_prefix in Hfree.
    unfold regexp.ReplaceAll_newlines at 1.
    rewrite (collapse_fixed _ 0 Hfree).
    apply TrimSpace_fixed, TrimSpace_trimmed. }
  unfold htmlToMarkdown. destruct (html_Parse P htmlContent) as [doc|e].
  - cbv zeta. apply Hfix.
  - reflexivity.
Qed.

(** ** The keys of the metadata *)

Section MetadataValues.

Import goquery.

Lemma setFromContent_none (key : string) (l : Selection)
    (m : gmap string string) :
  Forall (fun s => nodeAttr "content" (snd s) = None) l ->
  fold_left (setFromContent key) l m = m.
Proof.
  intros H. revert m. induction H as [|s l Hs _ IH]; intros m; simpl;
    [reflexivity|].
  unfold setFromContent at 2. rewrite Hs. apply IH.
Qed.

(** The last element with a [content] attribute decides the value. *)
Lemma setFromContent_last (key v : string) (l1 l2 : Selection) (s : Located)
    (m : gmap string string) :
  nodeAttr "content" (snd s) = Some v ->
  Forall (fun s' => nodeAttr "content" (snd s') = None) l2 ->
  fold_left (setFromContent key) (l1 ++ s :: l2) m !! key = Some v.
Proof.
  intros Hs Hl2. rewrite fold_left_app. simpl.
  rewrite (setFromContent_none key l2 _ Hl2).
  unfold setFromContent at 1. rewrite Hs. apply lookup_insert_eq.
Qed.

End MetadataValues.

(** X12. The map of [getMetadata] has no key besides [source], [title],
    [description] and [keywords], so a [<meta>] element cannot overwrite
    the source; and when several [<meta>] elements of a name carry a
    [content] attribute, the last of them in the document gives the
    value. *)
Theorem X12_metadata_keys_values (doc : html.Node) (url : string) :
  (forall k : string,
     is_Some (getMetadata doc url !! k) ->
     In k ["source"; "title"; "description"; "keywords"])
  /\ (forall (name v : string) (l1 l2 : goquery.Selection) (s : goquery.Located),
        In name ["description"; "keywords"] ->
        goquery.Find (goquery.metaNamed name) (goquery.root doc)
        = (l1 ++ s :: l2)%list ->
        goquery.nodeAttr "content" (snd s) = Some v ->
        Forall (fun s' => goquery.nodeAttr "content" (snd s') = None) l2 ->
        getMetadata doc url !! name = Some v).
Proof.
  split.
  - intros k Hk. simpl.
    destruct (decide (k = "source")) as [|H1]; [auto|].
    destruct (decide (k = "title")) as [|H2]; [auto|].
    destruct (decide (k = "description")) as [|H3]; [auto|].
    destruct (decide (k = "keywords")) as [|H4]; [auto 6|].
    exfalso. unfold getMetadata in Hk. cbv zeta in Hk.
    rewrite !setFromContent_other in Hk by congruence.
    destruct (negb (String.eqb (titleOf doc) ""));
      rewrite ?lookup_insert_ne in Hk by congruence;
      rewrite lookup_empty in Hk; destruct Hk; discriminate.
  - intros name v l1 l2 s Hname Hfind Hs Hl2.
    unfold getMetadata. cbv zeta.
    destruct Hname as [<- | [<- | []]].
    + rewrite setFromContent_other by discriminate.
      rewrite Hfind. apply setFromContent_last; assumption.
    + rewrite Hfind. apply setFromContent_last; assumption.
Qed.

(** ** [Convert]: one result per URL *)

Section Accounting.

Lemma runningURLs_app (a b : list Thread) :
  runningURLs (a ++ b) = (runningURLs a ++ runningURLs b)%list.
Proof. unfold runningURLs. apply flat_map_app. Qed.

Lemma filter_Permutation (f : Result -> bool) (l l' : list Result) :
  l ≡ₚ l' -> List.filter f l ≡ₚ List.filter f l'.
Proof.
  induction 1 as [|x l l' _ IH|x y l|l l' l'' _ IH1 _ IH2]; simpl.
  - reflexivity.
  - destruct (f x); [constructor|]; exact IH.
  - destruct (f x), (f y); try reflexivity. constructor.
  - etransitivity; eassumption.
Qed.

(** The result of a worker carries the URL the worker was started for. *)
Lemma worker_result_URL (P : Platform) (c : Converter) (selector u : string) :
  URL (snd (fst (run (worker P c selector u)))) = u.
Proof.
  unfold run, worker, bind.
  destruct (isPublicURL P u) as [[|]|e]; [|reflexivity ..].
  destruct (processURL P u selector []) as [r0 l].
  unfold Client_Get, WriteFile, ret, failure.
  repeat case_match; simplify_eq/=; reflexivity.
Qed.

Lemma sendingResults_running (us : list string) :
  sendingResults (List.map Running us) = [].
Proof. unfold sendingResults. induction us as [|u us IH]; simpl; auto. Qed.

Lemma runningURLs_running (us : list string) :
  runningURLs (List.map Running us) = us.
Proof.
  unfold runningURLs. induction us as [|u us IH]; simpl; [reflexivity|].
  rewrite IH. reflexivity.
Qed.

Variable c : Converter.
Variable selector : string.
Variable urls : list string.

Lemma initial_accounted : accounted urls (initial urls).
Proof.
  unfold accounted, initial, produced. simpl.
  rewrite sendingResults_running, runningURLs_running. simpl.
  split; reflexivity.
Qed.

Lemma step_accounted (st st' : RunState) :
  step c selector st st' -> accounted urls st -> accounted urls st'.
Proof.
  intros Hstep [Hall Hfail].
  destruct Hstep as [P pre post u sh out o | pre post r sh out].
  - pose proof (worker_result_URL P c selector u) as Hurl. fold o in Hurl.
    assert (Hup : (fst o = CountSuccess /\ failed (snd o) = false)
                  \/ (fst o = CountError u /\ failed (snd o) = true)).
    { unfold failed.
      destruct (worker_update_matches P c selector u (fst o) (snd o)
                  (snd (run (worker P c selector u))) (run_eta _))
        as [[-> ->] | [-> ->]]; auto. }
    clearbody o. destruct o as [up r]. simpl in Hurl, Hup. subst u.
    unfold accounted, produced in *. simpl in *.
    change (Running (URL r) :: post) with ([Running (URL r)] ++ post)%list in *.
    change (Sending r :: post) with ([Sending r] ++ post)%list.
    rewrite !sendingResults_app, !runningURLs_app in *. simpl in *.
    split.
    + rewrite <- Hall.
      rewrite !List.map_app. simpl.
      rewrite <- !app_assoc. simpl.
      rewrite <- !Permutation_middle. reflexivity.
    + destruct Hup as [[-> Hr] | [-> Hr]]; simpl.
      * rewrite Hfail, !List.filter_app. simpl. rewrite Hr. reflexivity.
      * rewrite <- Permutation_cons_append.
        rewrite Hfail, !List.filter_app. simpl. rewrite Hr.
        rewrite !List.map_app. simpl.
        rewrite <- !app_assoc. simpl.
        rewrite <- Permutation_middle. reflexivity.
  - unfold accounted, produced in *. simpl in *.
    change (Sending r :: post) with ([Sending r] ++ post)%list in *.
    change (Finished :: post) with ([Finished] ++ post)%list.
    rewrite !sendingResults_app, !runningURLs_app in *. simpl in *.
    assert (Hperm : ((sendingResults pre ++ sendingResults post) ++ out ++ [r])%list
                    ≡ₚ ((sendingResults pre ++ r :: sendingResults post) ++ out)%list).
    { transitivity (r :: (sendingResults pre ++ sendingResults post) ++ out)%list.
      - rewrite app_assoc. symmetry. apply Permutation_cons_append.
      - change (r :: (sendingResults pre ++ sendingResults post) ++ out)%list
          with ((r :: sendingResults pre ++ sendingResults post) ++ out)%list.
        apply Permutation_app_tail, Permutation_middle. }
    split.
    + rewrite <- Hall. apply Permutation_app_tail, Permutation_map, Hperm.
    + rewrite Hfail. apply Permutation_map, filter_Permutation.
      symmetry. exact Hperm.
Qed.

Lemma run_accounted (st st' : RunState) :
  rtc (step c selector) st st' -> accounted urls st -> accounted urls st'.
Proof.
  induction 1 as [|x y z Hxy _ IH]; [auto|].
  intros Hx. apply IH. exact (step_accounted x y Hxy Hx).
Qed.

Lemma finished_none_running (ts : list Thread) :
  forallb isFinished ts = true -> runningURLs ts = [].
Proof.
  unfold runningURLs. induction ts as [|t ts IH]; simpl; [auto|].
  rewrite andb_true_iff. intros [Ht Hts]. destruct t; try discriminate.
  simpl. auto.
Qed.

End Accounting.

(** X13. In every run of [Convert] whose stream is drained, the URLs of
    the results received are the URLs of the batch, each as often as it
    was given: one result per URL, none lost, none invented, duplicates
    not merged.  The [FailedURLs] of the summary are the URLs of the
    failed results, in some order. *)
Theorem X13_one_result_per_url (c : Converter) (urls : list string)
    (selector : string) (results : list Result) (summary : Summary) :
  Convert c urls selector results summary ->
  List.map URL results ≡ₚ urls
  /\ FailedURLs summary ≡ₚ List.map URL (List.filter failed results).
Proof.
  intros (st & elapsed & Hrun & Hdone & -> & ->).
  pose proof (run_accounted c selector urls _ _ Hrun (initial_accounted urls))
    as [Hall Hfail].
  unfold produced in *.
  destruct (finished_all_received _ Hdone) as [Hnone _].
  rewrite Hnone, (finished_none_running _ Hdone) in *. simpl in *.
  rewrite app_nil_r in Hall. split; assumption.
Qed.

Lemma X13_one_result_per_url_witness :
  let urls := [ "https://example.com/docs/"; "bad";
                "https://example.com/docs/" ] in
  let run := ConvertSequential Demo.plain Demo.job urls "#main" "1.2s" in
  List.map URL (fst run) ≡ₚ urls
  /\ FailedURLs (snd run) ≡ₚ List.map URL (List.filter failed (fst run)).
Proof.
  intros urls run.
  apply (X13_one_result_per_url Demo.job urls "#main" (fst run) (snd run)).
  apply sequential_Convert.
Defined.

(** X14. The counts of the summary are the counts of the stream:
    [Successful] is the number of results received with [IsSuccess], and
    [Failed] the number of the others. *)
Theorem X14_counts_match_stream (c : Converter) (urls : list string)
    (selector : string) (results : list Result) (summary : Summary) :
  (Z.of_nat (length urls) < 2 ^ 63)%Z ->
  Convert c urls selector results summary ->
  Successful summary = Z.of_nat (tally IsSuccess results)
  /\ Failed summary = Z.of_nat (tally failed results).
Proof.
  intros Hfits (st & elapsed & Hrun & Hdone & -> & ->).
  pose proof (run_consistent c selector (length urls) Hfits _ _ Hrun
                (initial_consistent (length urls) urls eq_refl))
    as (_ & Hsucc & Herr & _).
  destruct (finished_all_received _ Hdone) as [Hnone _].
  unfold produced in *. rewrite Hnone in *. simpl in *. auto.
Qed.

Lemma X14_counts_match_stream_witness :
  let urls := [ "https://example.com/docs/"; "bad" ] in
  let run := ConvertSequential Demo.plain Demo.job urls "#main" "1.2s" in
  Successful (snd run) = Z.of_nat (tally IsSuccess (fst run))
  /\ Failed (snd run) = Z.of_nat (tally failed (fst run)).
Proof.
  intros urls run.
  apply (X14_counts_match_stream Demo.job urls "#main" (fst run) (snd run)).
  - reflexivity.
  - apply sequential_Convert.
Defined.

(** X15. A batch without URLs ends at once: the stream carries no result
    and the summary counts nothing. *)
Theorem X15_empty_batch (c : Converter) (selector : string)
    (results : list Result) (summary : Summary) :
  Convert c [] selector results summary ->
  results = []
  /\ TotalURLs summary = 0%Z
  /\ Successful summary = 0%Z
  /\ Failed summary = 0%Z
  /\ FailedURLs summary = [].
Proof.
  intros (st & elapsed & Hrun & Hdone & -> & ->).
  pose proof (run_accounted c selector [] _ _ Hrun (initial_accounted []))
    as [Hall Hfail].
  pose proof (run_consistent c selector 0 ltac:(reflexivity) _ _ Hrun
                (initial_consistent 0 [] eq_refl))
    as (_ & Hsucc & Herr & _).
  unfold produced in *.
  destruct (finished_all_received _ Hdone) as [Hnone _].
  rewrite Hnone, (finished_none_running _ Hdone) in *. simpl in *.
  rewrite app_nil_r in Hall. apply Permutation_nil_r in Hall.
  apply map_eq_nil in Hall. rewrite Hall in *. simpl in *.
  apply Permutation_nil_r in Hfail. auto.
Qed.

Lemma X15_empty_batch_witness :
  fst (ConvertSequential Demo.plain Demo.job [] "#main" "0s") = []
  /\ TotalURLs (snd (ConvertSequential Demo.plain Demo.job [] "#main" "0s")) = 0%Z
  /\ Successful (snd (ConvertSequential Demo.plain Demo.job [] "#main" "0s")) = 0%Z
  /\ Failed (snd (ConvertSequential Demo.plain Demo.job [] "#main" "0s")) = 0%Z
  /\ FailedURLs (snd (ConvertSequential Demo.plain Demo.job [] "#main" "0s")) = [].
Proof.
  apply (X15_empty_batch Demo.job "#main"). apply sequential_Convert.
Defined.

(** ** [Convert] ends *)

Section Termination.

Variable c : Converter.
Variable selector : string.

(** Each step uses up exactly one unit of the remaining work. *)
Lemma step_uses_one (st st' : RunState) :
  step c selector st st' ->
  S (remaining (threads st')) = remaining (threads st).
Proof.
  intros [P pre post u sh out o | pre post r sh out]; simpl;
    rewrite !remaining_app; unfold remaining; simpl; lia.
Qed.

Lemma remaining_zero (ts : list Thread) :
  remaining ts = 0%nat <-> forallb isFinished ts = true.
Proof.
  unfold remaining. induction ts as [|t ts IH]; simpl; [tauto|].
  destruct t; simpl; rewrite <- ?IH; split; intros; try lia; try discriminate;
    auto.
Qed.

Lemma remaining_initial (urls : list string) :
  remaining (threads (initial urls)) = (2 * length urls)%nat.
Proof.
  unfold remaining, initial. simpl.
  induction urls as [|u us IH]; simpl in *; lia.
Qed.

Lemma nsteps_remaining (k : nat) (st st' : RunState) :
  nsteps (step c selector) k st st' ->
  (remaining (threads st') + k)%nat = remaining (threads st).
Proof.
  induction 1 as [|k x y z Hxy _ IH]; [lia|].
  apply step_uses_one in Hxy. lia.
Qed.

(** From any state the run can be brought to its end. *)
Lemma run_can_finish (P : Platform) (n : nat) :
  forall st : RunState,
    remaining (threads st) = n ->
    exists st', nsteps (step c selector) n st st' /\ allFinished st' = true.
Proof.
  induction n as [|n IH]; intros st Hn.
  - exists st. split; [constructor|]. apply remaining_zero, Hn.
  - destruct (allFinished st) eqn:Hdone.
    { apply remaining_zero in Hdone. lia. }
    destruct (step_progress P c selector st Hdone) as [st1 Hstep].
    pose proof (step_uses_one _ _ Hstep) as Hone.
    destruct (IH st1 ltac:(lia)) as (st' & Hrun & Hfin).
    exists st'. split; [|exact Hfin]. econstructor; eassumption.
Qed.

End Termination.


(** ** The constructors *)

(** X17. A constructor fails exactly when its argument is empty or the
    output directory cannot be created, and for an empty argument it
    fails before it touches the file system. *)
Theorem X17_constructor_failures (fs : FileSystem) (arg : string) :
  ((exists e, fst (NewConverterForJob fs arg) = Err e)
   <-> arg = ""
       \/ os_MkdirAll fs (filepath_Join3 fs "tmp" "downloads" arg) <> None)
  /\ ((exists e, fst (NewConverterForCLI fs arg) = Err e)
      <-> arg = "" \/ os_MkdirAll fs arg <> None)
  /\ snd (NewConverterForJob fs "") = []
  /\ snd (NewConverterForCLI fs "") = [].
Proof.
  unfold NewConverterForJob, NewConverterForCLI.
  repeat split; try reflexivity.
  - destruct (String.eqb_spec arg "") as [->|Hne]; [auto|].
    destruct (os_MkdirAll fs (filepath_Join3 fs "tmp" "downloads" arg));
      simpl; [intros _; right; discriminate | intros [e He]; discriminate].
  - destruct (String.eqb_spec arg "") as [->|Hne]; [simpl; eauto|].
    intros [? | Hmk]; [contradiction|].
    destruct (os_MkdirAll fs (filepath_Join3 fs "tmp" "downloads" arg));
      simpl; [eauto | contradiction].
  - destruct (String.eqb_spec arg "") as [->|Hne]; [auto|].
    destruct (os_MkdirAll fs arg);
      simpl; [intros _; right; discriminate | intros [e He]; discriminate].
  - destruct (String.eqb_spec arg "") as [->|Hne]; [simpl; eauto|].
    intros [? | Hmk]; [contradiction|].
    destruct (os_MkdirAll fs arg); simpl; [eauto | contradiction].
Qed.

(** X18. A converter built for a job has a non-empty identifier, asked
    for the one directory [tmp/downloads/<id>], stamps every summary of
    [Convert] with the identifier, and its workers write nowhere but into
    that directory, under names made of characters of [[a-z0-9_]] followed
    by [.md]. *)
Theorem X18_job_converter (fs : FileSystem) (id : string) (c : Converter)
    (dirs urls : list string) (selector : string) (results : list Result)
    (summary : Summary) :
  NewConverterForJob fs id = (Ok c, dirs) ->
  Convert c urls selector results summary ->
  id <> ""
  /\ dirs = [filepath_Join3 fs "tmp" "downloads" id]
  /\ Summary_DownloadID summary = id
  /\ (forall (P : Platform) (u path content : string),
        In (EvWriteFile path content) (snd (run (worker P c selector u))) ->
        exists name : string,
          Bytes.all regexp.wordByte name = true
          /\ path
             = filepath_Join P (filepath_Join3 fs "tmp" "downloads" id)
                 (name ++ ".md")).
Proof.
  unfold NewConverterForJob. intros Hnew (st & elapsed & _ & _ & _ & ->).
  destruct (String.eqb_spec id "") as [->|Hne]; [discriminate|].
  destruct (os_MkdirAll fs (filepath_Join3 fs "tmp" "downloads" id));
    [discriminate|].
  injection Hnew as <- <-. repeat split; auto.
  intros P u path content Hin.
  destruct (worker_log_shape P
              {| OutputDir := filepath_Join3 fs "tmp" "downloads" id;
                 DownloadID := id |} selector u)
    as [H | [H | [H | (name & content' & Hname & H)]]];
    rewrite H in Hin; simpl in Hin.
  - contradiction.
  - destruct Hin as [? | []]; discriminate.
  - destruct Hin as [? | [? | []]]; discriminate.
  - destruct Hin as [? | [? | [Heq | []]]]; try discriminate.
    injection Heq as <- <-. eauto.
Qed.

Lemma X18_job_converter_witness :
  let made := NewConverterForJob Faults.disk "job1" in
  let run := ConvertSequential Demo.plain Demo.job [Faults.url] "#main" "1s" in
  snd made = ["tmp/downloads/job1"]
  /\ Summary_DownloadID (snd run) = "job1".
Proof.
  intros made run.
  destruct (X18_job_converter Faults.disk "job1" Demo.job (snd made)
              [Faults.url] "#main" (fst run) (snd run))
    as (_ & Hdirs & Hid & _).
  - reflexivity.
  - apply sequential_Convert.
  - split; [exact Hdirs | exact Hid].
Defined.

(** ** The queue handler *)



(** ** The guard of the [integration] build *)

Lemma literal_app_head (x y : ascii) (l l' t : string) :
  x <> y -> String x l ++ t <> String y l'.
Proof. rewrite append_cons. intros Hxy H. injection H as Hx _. auto. Qed.

Lemma processURL_error_no_ssrf (P : Platform) (u selector : string)
    (log log' : list Event) (e : error) :
  processURL P u selector log = (Err e, log') ->
  e <> "SSRF attack suspected: URL resolves to a non-public IP".
Proof.
  unfold processURL, bind, Client_Get, ret. intros H.
  repeat case_match; simplify_eq/=; apply literal_app_head; discriminate.
Qed.

(** X20. In the [integration] build the guard is off: the worker sends
    its request whatever the URL resolves to and never reports a suspected
    SSRF; and for a URL the guard of the default build accepts, both
    builds do the same. *)
Theorem X20_integration_guard_off (P : Platform) (c : Converter)
    (selector u : string) :
  (exists rest, snd (run (worker_integration P c selector u)) = EvGet u :: rest)
  /\ Error (snd (fst (run (worker_integration P c selector u))))
     <> "SSRF attack suspected: URL resolves to a non-public IP"
  /\ workerWith (isPublicURL P) P c selector u = worker P c selector u
  /\ (isPublicURL P u = Ok true ->
      worker_integration P c selector u = worker P c selector u).
Proof.
  split; [|split; [|split]].
  - unfold run, worker_integration, workerWith, isPublicURL_integration, bind.
    pose proof (processURL_log P selector u []) as Hlog.
    destruct (processURL P u selector []) as [r0 l]. simpl in Hlog. subst l.
    unfold Client_Get, WriteFile, ret.
    repeat case_match; simplify_eq/=; eauto.
  - unfold run, worker_integration, workerWith, isPublicURL_integration, bind.
    pose proof (processURL_error_no_ssrf P u selector []) as Hne.
    destruct (processURL P u selector []) as [r0 l].
    unfold Client_Get, WriteFile, ret, failure.
    repeat case_match; simplify_eq/=;
      try (apply literal_app_head; discriminate); try discriminate.
    eapply Hne. reflexivity.
  - reflexivity.
  - intros Hpub. unfold worker_integration, workerWith, worker,
      isPublicURL_integration. rewrite Hpub. reflexivity.
Qed.

(** ** [extractJobID] *)

Section JobPath.

Import Bytes.

Lemma list_ascii_of_string_app (a b : string) :
  list_ascii_of_string (a ++ b)
  = (list_ascii_of_string a ++ list_ascii_of_string b)%list.
Proof.
  induction a as [|x a IH]; [reflexivity|].
  rewrite append_cons. simpl. rewrite IH. reflexivity.
Qed.

Lemma dropSlashes_fixed (x : ascii) (r : list ascii) :
  isb 47 x = false -> dropSlashes (x :: r) = x :: r.
Proof. intros H. simpl. rewrite H. reflexivity. Qed.

(** A path that, after its leading [/], starts and ends with a byte
    other than [/] loses exactly that leading [/]. *)
Lemma Trim_slash_core (body : string) (x y : ascii) (r r' : list ascii) :
  list_ascii_of_string body = x :: r ->
  rev (list_ascii_of_string body) = y :: r' ->
  isb 47 x = false ->
  isb 47 y = false ->
  Trim_slash ("/" ++ body) = body.
Proof.
  intros Hfirst Hlast Hx Hy. unfold Trim_slash.
  rewrite list_ascii_of_string_app. simpl.
  rewrite Hlast. simpl. rewrite Hy.
  change (y :: (r' ++ ["/"%char]))%list with ((y :: r') ++ ["/"%char])%list.
  rewrite <- Hlast, rev_app_distr, rev_involutive. simpl.
  rewrite Hfirst, (dropSlashes_fixed x r Hx), <- Hfirst.
  apply string_of_list_ascii_of_string.
Qed.

Lemma noSlash_first (a : string) :
  noSlash a = true -> a <> "" ->
  exists x a', a = String x a' /\ isb 47 x = false.
Proof.
  destruct a as [|x a']; [contradiction|]. unfold noSlash. simpl.
  rewrite andb_true_iff, negb_true_iff. intros [Hx _] _. eauto.
Qed.

Lemma noSlash_last (a : string) :
  noSlash a = true -> a <> "" ->
  exists y r, rev (list_ascii_of_string a) = y :: r /\ isb 47 y = false.
Proof.
  unfold noSlash. induction a as [|x a IH]; [contradiction|].
  simpl. rewrite andb_true_iff, negb_true_iff. intros [Hx Ha] _.
  destruct a as [|x' a'].
  - simpl. eauto.
  - destruct (IH Ha ltac:(discriminate)) as (y & r & Hrev & Hy).
    rewrite Hrev. simpl. eauto.
Qed.

(** No piece of a split holds the separator. *)
Lemma Split_slash_pieces (s : string) :
  Forall (fun p => noSlash p = true) (strings.Split_slash s).
Proof.
  induction s as [|x s IH]; simpl; [repeat constructor|].
  destruct (isb 47 x) eqn:Hx; [constructor; [reflexivity | exact IH]|].
  destruct (strings.Split_slash s) as [|p ps]; [repeat constructor|].
  - unfold noSlash. simpl. rewrite Hx. reflexivity.
  - inversion IH; subst. constructor; [|assumption].
    unfold noSlash in *. simpl. rewrite Hx. simpl. assumption.
Qed.

Variables a b id : string.
Hypothesis a_piece : noSlash a = true.
Hypothesis a_nonempty : a <> "".
Hypothesis b_piece : noSlash b = true.
Hypothesis id_piece : noSlash id = true.

Lemma split_download :
  strings.Split_slash (a ++ "/" ++ b ++ "/jobs/" ++ id ++ "/download")
  = [a; b; "jobs"; id; "download"].
Proof.
  change (a ++ "/" ++ b ++ "/jobs/" ++ id ++ "/download")
    with (a ++ String "/" (b ++ String "/" ("jobs" ++ String "/"
            (id ++ String "/" "download")))).
  rewrite !Split_slash_app.
  rewrite !Split_slash_noSlash by (assumption || reflexivity).
  reflexivity.
Qed.

Lemma split_no_download :
  strings.Split_slash (a ++ "/" ++ b ++ "/jobs/" ++ id) = [a; b; "jobs"; id].
Proof.
  change (a ++ "/" ++ b ++ "/jobs/" ++ id)
    with (a ++ String "/" (b ++ String "/" ("jobs" ++ String "/" id))).
  rewrite !Split_slash_app.
  rewrite !Split_slash_noSlash by (assumption || reflexivity).
  reflexivity.
Qed.

Lemma trim_download :
  Trim_slash ("/" ++ a ++ "/" ++ b ++ "/jobs/" ++ id ++ "/download")
  = a ++ "/" ++ b ++ "/jobs/" ++ id ++ "/download".
Proof.
  destruct (noSlash_first a a_piece a_nonempty) as (x & a' & -> & Hx).
  eapply (Trim_slash_core _ x "d"%char); [| |exact Hx|reflexivity].
  - rewrite append_cons. reflexivity.
  - rewrite !list_ascii_of_string_app, !rev_app_distr. reflexivity.
Qed.

Lemma trim_no_download :
  id <> "" ->
  Trim_slash ("/" ++ a ++ "/" ++ b ++ "/jobs/" ++ id)
  = a ++ "/" ++ b ++ "/jobs/" ++ id.
Proof.
  intros Hid.
  destruct (noSlash_first a a_piece a_nonempty) as (x & a' & -> & Hx).
  destruct (noSlash_last id id_piece Hid) as (y & r & Hrev & Hy).
  eapply (Trim_slash_core _ x y); [| |exact Hx|exact Hy].
  - rewrite append_cons. reflexivity.
  - rewrite !list_ascii_of_string_app, !rev_app_distr, Hrev. reflexivity.
Qed.

End JobPath.

(** X21. For a path of the documented shape [/a/b/jobs/<id>/download],
    whose first segment is not empty, [extractJobID] returns the segment
    between [jobs] and [download]. *)
Theorem X21_extractJobID_download_path (a b id : string) :
  noSlash a = true -> a <> "" -> noSlash b = true -> noSlash id = true ->
  extractJobID ("/" ++ a ++ "/" ++ b ++ "/jobs/" ++ id ++ "/download")
  = Returns id.
Proof.
  intros Ha Hne Hb Hid. unfold extractJobID.
  rewrite trim_download, split_download by assumption. reflexivity.
Qed.

Lemma X21_extractJobID_download_path_witness :
  extractJobID ("/" ++ "api" ++ "/" ++ "v1" ++ "/jobs/" ++ "some-job-id"
                ++ "/download")
  = Returns "some-job-id".
Proof.
  apply (X21_extractJobID_download_path "api" "v1" "some-job-id");
    reflexivity || discriminate.
Defined.

(** X22. The test [len(parts) >= 4] does not cover [parts[4]]: for a
    path of exactly four segments whose third is [jobs], such as
    [/api/v1/jobs/<id>] without [/download], [extractJobID] does not
    return the empty string but panics on the index out of range. *)
Theorem X22_extractJobID_panics (a b id : string) :
  noSlash a = true -> a <> "" -> noSlash b = true ->
  noSlash id = true -> id <> "" ->
  extractJobID ("/" ++ a ++ "/" ++ b ++ "/jobs/" ++ id) = Panics.
Proof.
  intros Ha Hne Hb Hid Hidne. unfold extractJobID.
  rewrite trim_no_download, split_no_download by assumption. reflexivity.
Qed.

Lemma X22_extractJobID_panics_witness :
  extractJobID ("/" ++ "api" ++ "/" ++ "v1" ++ "/jobs/" ++ "some-job-id")
  = Panics.
Proof.
  apply (X22_extractJobID_panics "api" "v1" "some-job-id");
    reflexivity || discriminate.
Defined.

(** X23. Whatever the path, an identifier [extractJobID] returns holds
    no [/]; a path of fewer than four segments, or whose third segment is
    not [jobs], gives the empty identifier. *)
Theorem X23_extractJobID_result (path : string) :
  (forall id : string, extractJobID path = Returns id -> noSlash id = true)
  /\ ((length (strings.Split_slash (Trim_slash path)) < 4)%nat ->
      extractJobID path = Returns "")
  /\ (strings.Split_slash (Trim_slash path) !! 2%nat <> Some "jobs" ->
      extractJobID path = Returns "").
Proof.
  unfold extractJobID, index.
  pose proof (Split_slash_pieces (Trim_slash path)) as Hpieces.
  set (parts := strings.Split_slash (Trim_slash path)) in *.
  split; [|split].
  - intros id.
    destruct (4 <=? length parts)%nat; [|intros [= <-]; reflexivity].
    destruct (parts !! 2%nat) as [p2|]; [|discriminate].
    destruct (String.eqb p2 "jobs"); [|intros [= <-]; reflexivity].
    destruct (parts !! 4%nat) as [p4|]; [|discriminate].
    destruct (String.eqb p4 "download"); [|intros [= <-]; reflexivity].
    destruct (parts !! 3%nat) as [p3|] eqn:H3; [|discriminate].
    intros [= <-].
    rewrite Forall_forall in Hpieces. apply Hpieces.
    eapply list_elem_of_lookup_2. exact H3.
  - intros Hlen. destruct (4 <=? length parts)%nat eqn:E; [|reflexivity].
    apply Nat.leb_le in E. lia.
  - intros Hjobs. destruct (4 <=? length parts)%nat eqn:E; [|reflexivity].
    apply Nat.leb_le in E.
    destruct (parts !! 2%nat) as [p2|] eqn:H2.
    + destruct (String.eqb_spec p2 "jobs") as [->|Hne];
        [contradiction | reflexivity].
    + apply lookup_ge_None in H2. lia.
Qed.
